(** * foldeddict.py: a mapping whose equivalent keys share one entry

    A shallow embedding of [FoldedDict] and its subclasses [CanonFolder],
    [DKFoldedDict] and [StrippedWhitespaceDict], followed by the properties
    of the folding map.

    Python objects used as keys and values are the type [obj]; a Python
    [dict] is an insertion-ordered association list ([pydict]); methods that
    read or write [self.__preserves] and [self.__dict] live in a small state
    and exception monad [M], so that the two tables left behind by a raised
    exception are part of every result. *)

From Stdlib Require Import List String Ascii ZArith Bool Lia Permutation.
Import ListNotations.
Local Open Scope string_scope.
Local Open Scope Z_scope.

(** ** Python objects *)

(** The key and value domain: [None], integers, [str], [bytes] and tuples.
    All of them are hashable and their [==] is structural ([bool] and
    [float], whose [==] crosses types, are left out).  Text is read as
    ASCII: one [ascii] per character. *)
#[local] Unset Elimination Schemes.
Inductive obj : Type :=
| PyNone
| PyInt (z : Z)
| PyStr (s : string)
| PyBytes (b : string)
| PyTuple (l : list obj).
#[local] Set Elimination Schemes.

Fixpoint obj_eqb (a b : obj) {struct a} : bool :=
  match a, b with
  | PyNone, PyNone => true
  | PyInt x, PyInt y => Z.eqb x y
  | PyStr s, PyStr t => String.eqb s t
  | PyBytes s, PyBytes t => String.eqb s t
  | PyTuple l, PyTuple m =>
      (fix all2 (l m : list obj) {struct l} : bool :=
         match l, m with
         | [], [] => true
         | x :: l', y :: m' => obj_eqb x y && all2 l' m'
         | _, _ => false
         end) l m
  | _, _ => false
  end.

(** The exceptions the module can meet. *)
Inductive exn : Type := KeyError | AttributeError | TypeError.

Definition exn_eqb (a b : exn) : bool :=
  match a, b with
  | KeyError, KeyError | AttributeError, AttributeError
  | TypeError, TypeError => true
  | _, _ => false
  end.

Inductive result (A : Type) : Type :=
| Ok (a : A)
| Raise (e : exn).
Arguments Ok {A} a.
Arguments Raise {A} e.

Definition rbind {A B} (r : result A) (f : A -> result B) : result B :=
  match r with
  | Ok a => f a
  | Raise e => Raise e
  end.

(** ** Python dict: insertion-ordered, one entry per key *)

Definition pydict : Type := list (obj * obj).

(** [d.get(k)] as an option. *)
Fixpoint d_get (d : pydict) (k : obj) : option obj :=
  match d with
  | [] => None
  | (k', v) :: d' => if obj_eqb k' k then Some v else d_get d' k
  end.

(** [d[k] = v]: an existing key keeps its place, a new one goes last. *)
Fixpoint d_set (d : pydict) (k v : obj) : pydict :=
  match d with
  | [] => [(k, v)]
  | (k', v') :: d' =>
      if obj_eqb k' k then (k', v) :: d' else (k', v') :: d_set d' k v
  end.

(** The table after [del d[k]]. *)
Fixpoint d_del (d : pydict) (k : obj) : pydict :=
  match d with
  | [] => []
  | (k', v') :: d' => if obj_eqb k' k then d' else (k', v') :: d_del d' k
  end.

(** [d[k]] raises [KeyError] on a missing key. *)
Definition d_subscript (d : pydict) (k : obj) : result obj :=
  match d_get d k with
  | Some v => Ok v
  | None => Raise KeyError
  end.

(** [d1 == d2] on two dicts: same length, and every key of [d1] is in [d2]
    with an equal value. *)
Definition dict_eqb (d1 d2 : pydict) : bool :=
  Nat.eqb (List.length d1) (List.length d2) &&
  forallb (fun kv => match d_get d2 (fst kv) with
                     | Some v' => obj_eqb (snd kv) v'
                     | None => false
                     end) d1.

(** [dict(pairs)]: later pairs overwrite earlier ones. *)
Definition py_dict (pairs : list (obj * obj)) : pydict :=
  fold_left (fun d kv => d_set d (fst kv) (snd kv)) pairs [].

(** ** str and bytes methods *)

Definition lower_ascii (c : ascii) : ascii :=
  let n := nat_of_ascii c in
  if (Nat.leb 65 n && Nat.leb n 90)%bool then ascii_of_nat (n + 32) else c.

Fixpoint lower (s : string) : string :=
  match s with
  | EmptyString => EmptyString
  | String c s' => String (lower_ascii c) (lower s')
  end.

(** Whitespace of [str.split()]: tab to carriage return, the four
    separators 28..31 and the space; [bytes.split()] leaves out 28..31. *)
Definition str_isspace (c : ascii) : bool :=
  let n := nat_of_ascii c in
  ((Nat.leb 9 n && Nat.leb n 13) || (Nat.leb 28 n && Nat.leb n 32))%bool.

Definition bytes_isspace (c : ascii) : bool :=
  let n := nat_of_ascii c in
  ((Nat.leb 9 n && Nat.leb n 13) || Nat.eqb n 32)%bool.

(** [s.split()]: the maximal runs of non-whitespace, in order.  [cur] is the
    run being read. *)
Fixpoint split_ws (isspace : ascii -> bool) (cur : string) (s : string)
  : list string :=
  match s with
  | EmptyString => if String.eqb cur "" then [] else [cur]
  | String c s' =>
      if isspace c
      then ((if String.eqb cur "" then [] else [cur]) ++ split_ws isspace "" s')%list
      else split_ws isspace (cur ++ String c "") s'
  end.

(** [key.lower()]: only [str] and [bytes] have the attribute. *)
Definition py_lower (key : obj) : result obj :=
  match key with
  | PyStr s => Ok (PyStr (lower s))
  | PyBytes b => Ok (PyBytes (lower b))
  | _ => Raise AttributeError
  end.

(** [key.split()]: only [str] and [bytes] have the attribute. *)
Definition py_split (key : obj) : result (list obj) :=
  match key with
  | PyStr s => Ok (map PyStr (split_ws str_isspace "" s))
  | PyBytes b => Ok (map PyBytes (split_ws bytes_isspace "" b))
  | _ => Raise AttributeError
  end.

(** [''.join(xs)]: every item must be a [str]. *)
Fixpoint py_join_empty (xs : list obj) : result string :=
  match xs with
  | [] => Ok ""
  | PyStr s :: xs' => rbind (py_join_empty xs') (fun t => Ok (s ++ t))
  | _ :: _ => Raise TypeError
  end.

(** ** Instances and the monad of their methods *)

(** The two private tables of an instance: [self.__preserves] maps a
    canonical key to the preserved key of its class, [self.__dict] maps a
    preserved key to the value. *)
Record instance : Type := Instance_ {
  __preserves : pydict;
  __dict : pydict
}.

Definition empty : instance := {| __preserves := []; __dict := [] |}.

(** A method body: from the tables before the call to a value or an
    exception, and the tables after it. *)
Definition M (A : Type) : Type := instance -> result A * instance.

Definition ret {A} (a : A) : M A := fun s => (Ok a, s).

Definition raise {A} (e : exn) : M A := fun s => (Raise e, s).

Definition lift {A} (r : result A) : M A := fun s => (r, s).

Definition bind {A B} (m : M A) (f : A -> M B) : M B :=
  fun s => match m s with
           | (Ok a, s') => f a s'
           | (Raise e, s') => (Raise e, s')
           end.

(** [try: body / except e: handler]. *)
Definition try_except {A} (body : M A) (e : exn) (handler : M A) : M A :=
  fun s => match body s with
           | (Ok a, s') => (Ok a, s')
           | (Raise e', s') =>
               if exn_eqb e e' then handler s' else (Raise e', s')
           end.

Declare Scope py_scope.
Delimit Scope py_scope with py.
Notation "x <- m ;; k" := (bind m (fun x => k))
  (at level 61, m at next level, right associativity) : py_scope.
Notation "m ;;; k" := (bind m (fun _ => k))
  (at level 61, right associativity) : py_scope.
Local Open Scope py_scope.

(** [self.__preserves[c]], [self.__preserves[c] = p], [del self.__preserves[c]]
    and the same three on [self.__dict]. *)
Definition preserves_get (c : obj) : M obj :=
  fun s => (d_subscript (__preserves s) c, s).

Definition preserves_set (c p : obj) : M unit :=
  fun s => (Ok tt, {| __preserves := d_set (__preserves s) c p;
                      __dict := __dict s |}).

Definition preserves_del (c : obj) : M unit :=
  fun s => match d_get (__preserves s) c with
           | Some _ => (Ok tt, {| __preserves := d_del (__preserves s) c;
                                  __dict := __dict s |})
           | None => (Raise KeyError, s)
           end.

Definition dict_get (p : obj) : M obj :=
  fun s => (d_subscript (__dict s) p, s).

Definition dict_set (p v : obj) : M unit :=
  fun s => (Ok tt, {| __preserves := __preserves s;
                      __dict := d_set (__dict s) p v |}).

Definition dict_del (p : obj) : M unit :=
  fun s => match d_get (__dict s) p with
           | Some _ => (Ok tt, {| __preserves := __preserves s;
                                  __dict := d_del (__dict s) p |})
           | None => (Raise KeyError, s)
           end.

(** ** The classes *)

(** Which class supplies [_savekey]. *)
Inductive savekey_owner : Type :=
| OfFoldedDict
| OfCanonFolder
| OfDKFoldedDict.

(** A class of the module: its [canonicalkey] and the owner of its
    [_savekey]; every other method is inherited from [FoldedDict]. *)
Record klass : Type := Klass {
  canonicalkey : obj -> result obj;
  savekey_of : savekey_owner
}.

(** [FoldedDict.canonicalkey]:
    try [key.lower()], on [AttributeError] the key itself. *)
Definition FoldedDict_canonicalkey (key : obj) : result obj :=
  match py_lower key with
  | Raise AttributeError => Ok key
  | r => r
  end.

(** [StrippedWhitespaceDict.canonicalkey]:
    try [''.join(key.split())], on [TypeError] the key itself. *)
Definition StrippedWhitespaceDict_canonicalkey (key : obj) : result obj :=
  match rbind (py_split key)
              (fun ws => rbind (py_join_empty ws) (fun s => Ok (PyStr s))) with
  | Raise TypeError => Ok key
  | r => r
  end.

Definition FoldedDict : klass :=
  Klass FoldedDict_canonicalkey OfFoldedDict.
Definition CanonFolder : klass :=
  Klass FoldedDict_canonicalkey OfCanonFolder.
Definition DKFoldedDict : klass :=
  Klass FoldedDict_canonicalkey OfDKFoldedDict.
Definition StrippedWhitespaceDict : klass :=
  Klass StrippedWhitespaceDict_canonicalkey OfFoldedDict.

Section Methods.

Variable C : klass.

(** [FoldedDict.__getitem__] *)
Definition __getitem__ (key : obj) : M obj :=
  c <- lift (canonicalkey C key) ;;
  p <- preserves_get c ;;
  dict_get p.

(** [FoldedDict.__delitem__] *)
Definition __delitem__ (key : obj) : M unit :=
  canon <- lift (canonicalkey C key) ;;
  p <- preserves_get canon ;;
  preserves_del canon ;;;
  dict_del p.

(** [Mapping.__contains__] of collections.abc, behind [key in self]:
    try [self[key]], [False] on [KeyError]. *)
Definition __contains__ (key : obj) : M bool :=
  try_except (__getitem__ key ;;; ret true) KeyError (ret false).

(** [FoldedDict._savekey] *)
Definition FoldedDict_savekey (key : obj) : M obj :=
  canon <- lift (canonicalkey C key) ;;
  try_except (preserves_get canon) KeyError
             (preserves_set canon key ;;; ret key).

(** [CanonFolder._savekey] *)
Definition CanonFolder_savekey (key : obj) : M obj :=
  k <- lift (canonicalkey C key) ;;
  FoldedDict_savekey k.

(** [DKFoldedDict._savekey] *)
Definition DKFoldedDict_savekey (key : obj) : M obj :=
  b <- __contains__ key ;;
  (if b then __delitem__ key else ret tt) ;;;
  FoldedDict_savekey key.

(** [self._savekey], as the class resolves it. *)
Definition _savekey (key : obj) : M obj :=
  match savekey_of C with
  | OfFoldedDict => FoldedDict_savekey key
  | OfCanonFolder => CanonFolder_savekey key
  | OfDKFoldedDict => DKFoldedDict_savekey key
  end.

(** [FoldedDict.__setitem__] *)
Definition __setitem__ (key val : obj) : M unit :=
  p <- _savekey key ;;
  dict_set p val.

(** [FoldedDict.__iter__]: the keys of [self.__dict], in its order. *)
Definition __iter__ (s : instance) : list obj := map fst (__dict s).

(** [FoldedDict.__len__] *)
Definition __len__ (s : instance) : nat := List.length (__dict s).

(** [list(self.keys())]: the keys view of collections.abc iterates
    [self]. *)
Definition keys (s : instance) : list obj := __iter__ s.

(** [self.items()]: the items view of collections.abc yields
    [(key, self[key])] for each key of [__iter__]. *)
Fixpoint items_of (ks : list obj) (s : instance)
  : result (list (obj * obj)) :=
  match ks with
  | [] => Ok []
  | k :: ks' =>
      rbind (fst (__getitem__ k s)) (fun v =>
      rbind (items_of ks' s) (fun r => Ok ((k, v) :: r)))
  end.

Definition items (s : instance) : result (list (obj * obj)) :=
  items_of (__iter__ s) s.

(** [{self.canonicalkey(k): v for k, v in self.items()}]: each item is
    fetched, then its key folded, before the next item is asked for. *)
Fixpoint canon_comprehension (ks : list obj) (s : instance) (acc : pydict)
  : result pydict :=
  match ks with
  | [] => Ok acc
  | k :: ks' =>
      rbind (fst (__getitem__ k s)) (fun v =>
      rbind (canonicalkey C k) (fun c =>
      canon_comprehension ks' s (d_set acc c v)))
  end.

Definition canon_items (s : instance) : result pydict :=
  canon_comprehension (__iter__ s) s [].

(** [FoldedDict.__init__] on a fresh instance; [args] is the sequence of
    pairs handed to [dict()]. *)
Fixpoint setitems (kvs : list (obj * obj)) : M unit :=
  match kvs with
  | [] => ret tt
  | (k, v) :: kvs' => __setitem__ k v ;;; setitems kvs'
  end.

Definition __init__ (args : list (obj * obj)) : result unit * instance :=
  setitems (py_dict args) empty.

End Methods.

(** ** Equality *)

(** The right operand of [==]: an instance of a class of this module, or a
    plain [dict]. *)
Inductive operand : Type :=
| Folding (C' : klass) (s' : instance)
| Plain (d : pydict).

(** [{other.canonicalkey(k): v for k, v in other.items()}] when [other] is
    a plain dict: [other.items()] succeeds, and the first item asks for the
    attribute [canonicalkey], which a dict does not have. *)
Definition plain_comprehension (d : pydict) : result pydict :=
  match d with
  | [] => Ok []
  | _ :: _ => Raise AttributeError
  end.

(** [FoldedDict.__eq__] against a plain dict. *)
Definition eq_plain (C : klass) (s : instance) (d : pydict) : result bool :=
  match rbind (plain_comprehension d) (fun oc =>
        rbind (canon_items C s) (fun sc => Ok (dict_eqb sc oc))) with
  | Raise AttributeError => Ok (dict_eqb (__dict s) d)
  | r => r
  end.

(** [FoldedDict.__eq__].  In the handler [self.__dict == other] with a
    folding [other], [dict.__eq__] declines and Python asks
    [other.__eq__(self.__dict)], the method above. *)
Definition __eq__ (C : klass) (s : instance) (other : operand) : result bool :=
  match other with
  | Plain d => eq_plain C s d
  | Folding C' s' =>
      match rbind (canon_items C' s') (fun oc =>
            rbind (canon_items C s) (fun sc => Ok (dict_eqb sc oc))) with
      | Raise AttributeError => eq_plain C' s' (__dict s)
      | r => r
      end
  end.

(** ** Histories *)

(** The mutating and reading calls a client can make on an instance. *)
Inductive call : Type :=
| Set_ (key val : obj)
| Del (key : obj)
| Get (key : obj).

(** The tables a call leaves behind, whether it returned or raised. *)
Definition after (C : klass) (c : call) (s : instance) : instance :=
  match c with
  | Set_ k v => snd (__setitem__ C k v s)
  | Del k => snd (__delitem__ C k s)
  | Get k => snd (__getitem__ C k s)
  end.

Definition run (C : klass) (cs : list call) (s : instance) : instance :=
  fold_left (fun s c => after C c s) cs s.

(** The instances a program can hold: a fresh one, and whatever calls
    leave behind. *)
Inductive reachable (C : klass) : instance -> Prop :=
| reach_empty : reachable C empty
| reach_call c s : reachable C s -> reachable C (after C c s).

(** ** Auxiliary notions for the proofs *)

Section Auxiliary.

Variable C : klass.

(** A row of [__preserves] and the row of [__dict] at the same place:
    the preserved key is the key of the value, and it folds to the
    canonical key it is filed under. *)
Definition linked (cp kv : obj * obj) : Prop :=
  snd cp = fst kv /\ canonicalkey C (snd cp) = Ok (fst cp).

Definition consistent (s : instance) : Prop :=
  Forall2 linked (__preserves s) (__dict s) /\
  NoDup (map fst (__preserves s)).

(** [self.__dict[FoldedDict._savekey(self, key)] = val]: the body of
    [__setitem__] once [_savekey] has been resolved to the base class. *)
Definition store (key val : obj) : M unit :=
  p <- FoldedDict_savekey C key ;; dict_set p val.

(** The dict [{self.canonicalkey(k): v for k, v in self.items()}] of a
    consistent instance: one row per row of the tables, the canonical key
    of [__preserves] with the value of [__dict]. *)
Definition folded_rows (s : instance) : pydict :=
  combine (map fst (__preserves s)) (map snd (__dict s)).

(** [(c, v)] is a pair (canonical key, value) of the instance: some item
    [(p, v)] of [self.items()] has [self.canonicalkey(p) == c]. *)
Definition folded_pair (s : instance) (c v : obj) : Prop :=
  exists its, items C s = Ok its /\
    exists p, In (p, v) its /\ canonicalkey C p = Ok c.

End Auxiliary.

(** ** The order of iteration, from the history of calls *)


Fixpoint l_del (l : list obj) (x : obj) : list obj :=
  match l with
  | [] => []
  | y :: l' => if obj_eqb y x then l' else y :: l_del l' x
  end.




(** Whether a set of a populated class re-files it: only
    [DKFoldedDict._savekey] deletes before it stores. *)
Definition refiles (C : klass) : bool :=
  match savekey_of C with
  | OfDKFoldedDict => true
  | _ => false
  end.

(** Following the spec's words (I1): the two tables have the same number
    of rows, the preserved keys held by [__preserves] are exactly the keys
    of [__dict], no canonical key and no preserved key occurs twice, and
    every row of [__preserves] has exactly one row of [__dict] under its
    preserved key. *)
Definition tables_agree (s : instance) : Prop :=
  List.length (__preserves s) = List.length (__dict s) /\
  (forall p, In p (map snd (__preserves s)) <-> In p (map fst (__dict s))) /\
  NoDup (map fst (__preserves s)) /\
  NoDup (map snd (__preserves s)) /\
  (forall c p, In (c, p) (__preserves s) ->
               exists! v, In (p, v) (__dict s)).

(** The history on which the most-recent policy reorders without any
    delete by the client: [d['a'] = 1; d['b'] = 2; d['A'] = 3]. *)
Definition reordering_history : list call :=
  [Set_ (PyStr "a") (PyInt 1); Set_ (PyStr "b") (PyInt 2);
   Set_ (PyStr "A") (PyInt 3)].

(** ** SortedKeyDict *)

(** Ascending order by insertion, for an order [leb]. *)
Section Sorting.

Context {A : Type} (leb : A -> A -> bool).

Fixpoint insert_sorted (x : A) (l : list A) : list A :=
  match l with
  | [] => [x]
  | y :: l' => if leb x y then x :: l else y :: insert_sorted x l'
  end.

Definition sort_by (l : list A) : list A := fold_right insert_sorted [] l.

End Sorting.

(** What iterating a key yields: the items of a tuple, the one-character
    strings of a [str], the byte values of a [bytes]; [None] and integers
    are not iterable. *)
Fixpoint chars (s : string) : list string :=
  match s with
  | EmptyString => []
  | String c s' => String c "" :: chars s'
  end.

Fixpoint byte_values (b : string) : list Z :=
  match b with
  | EmptyString => []
  | String c b' => Z.of_nat (nat_of_ascii c) :: byte_values b'
  end.

Definition py_iter (key : obj) : result (list obj) :=
  match key with
  | PyTuple l => Ok l
  | PyStr s => Ok (map PyStr (chars s))
  | PyBytes b => Ok (map PyInt (byte_values b))
  | _ => Raise TypeError
  end.

(** The integers of a list made of integers only, the strings of a list
    made of [str] only. *)
Fixpoint ints_of (l : list obj) : option (list Z) :=
  match l with
  | [] => Some []
  | PyInt z :: l' => option_map (cons z) (ints_of l')
  | _ :: _ => None
  end.

Fixpoint strs_of (l : list obj) : option (list string) :=
  match l with
  | [] => Some []
  | PyStr s :: l' => option_map (cons s) (strs_of l')
  | _ :: _ => None
  end.

Section SortedKeyDictClass.

(** [sorted(l)] on the lists that are neither all integers nor all [str]
    (where items of different types may or may not get compared) is left
    open: every statement below holds whatever it returns or raises. *)
Variable sorted_other : list obj -> result (list obj).

(** [sorted(l)]: integers by value, strings by code points. *)
Definition py_sorted (l : list obj) : result (list obj) :=
  match ints_of l with
  | Some zs => Ok (map PyInt (sort_by Z.leb zs))
  | None =>
      match strs_of l with
      | Some ss => Ok (map PyStr (sort_by String.leb ss))
      | None => sorted_other l
      end
  end.

(** [SortedKeyDict.canonicalkey]:
    try [tuple(sorted(key))], on [TypeError] the key itself. *)
Definition SortedKeyDict_canonicalkey (key : obj) : result obj :=
  match rbind (py_iter key)
              (fun l => rbind (py_sorted l) (fun l' => Ok (PyTuple l'))) with
  | Raise TypeError => Ok key
  | r => r
  end.

Definition SortedKeyDict : klass :=
  Klass SortedKeyDict_canonicalkey OfFoldedDict.

End SortedKeyDictClass.

(** ** Copying *)

(** [FoldedDict.copy]: [self.__class__(self)].  [__init__] hands [self] to
    [dict()], which asks a mapping for [keys()] and then for [self[key]] of
    each key, so what [dict()] receives is [items]; an exception of
    [__init__] leaves no instance. *)
Definition copy (C : klass) (s : instance) : result instance :=
  rbind (items C s) (fun its =>
    match __init__ C its with
    | (Ok _, s') => Ok s'
    | (Raise e, _) => Raise e
    end).

(** ** Auxiliary notions for the laws of the mapping *)

(** The value filed for the class of canonical key [c], through both
    tables. *)
Definition lookup (s : instance) (c : obj) : option obj :=
  match d_get (__preserves s) c with
  | Some p => d_get (__dict s) p
  | None => None
  end.

(** Whether [self.canonicalkey(k)] returns [c]. *)
Definition folds_to (C : klass) (k c : obj) : bool :=
  match canonicalkey C k with
  | Ok c' => obj_eqb c' c
  | Raise _ => false
  end.

(** The value of the last row of [kvs] whose key folds to [c]. *)
Fixpoint last_in_class (C : klass) (kvs : list (obj * obj)) (c : obj)
  : option obj :=
  match kvs with
  | [] => None
  | (k, v) :: kvs' =>
      match last_in_class C kvs' c with
      | Some v' => Some v'
      | None => if folds_to C k c then Some v else None
      end
  end.


(** The condition under which [CanonFolder._savekey] files a key where
    [__getitem__] looks for it: [canonicalkey] returns its own results
    unchanged.  It is asked of no other [_savekey]. *)
Definition idempotent_if_canonical (C : klass) : Prop :=
  savekey_of C = OfCanonFolder ->
  forall k c, canonicalkey C k = Ok c -> canonicalkey C c = Ok c.

(** Keys that are neither [str] nor [bytes]. *)
Definition not_text (k : obj) : Prop :=
  match k with
  | PyStr _ | PyBytes _ => False
  | _ => True
  end.

(** * Properties *)

(** ** Equality of objects is structural *)

Section ObjInduction.

Variable P : obj -> Prop.
Hypothesis HNone : P PyNone.
Hypothesis HInt : forall z, P (PyInt z).
Hypothesis HStr : forall s, P (PyStr s).
Hypothesis HBytes : forall b, P (PyBytes b).
Hypothesis HTuple : forall l, Forall P l -> P (PyTuple l).

Fixpoint obj_ind (o : obj) : P o :=
  match o with
  | PyNone => HNone
  | PyInt z => HInt z
  | PyStr s => HStr s
  | PyBytes b => HBytes b
  | PyTuple l =>
      HTuple l
        ((fix each (l : list obj) : Forall P l :=
            match l with
            | [] => Forall_nil P
            | x :: l' => Forall_cons x (obj_ind x) (each l')
            end) l)
  end.

End ObjInduction.

Lemma obj_eqb_eq (a b : obj) : obj_eqb a b = true <-> a = b.
Proof.
  revert b. induction a as [| z | s | s | l IH] using obj_ind;
    intros [| z' | s' | s' | l']; simpl;
    try (split; [discriminate | congruence]); try tauto.
  - rewrite Z.eqb_eq. split; congruence.
  - rewrite String.eqb_eq. split; congruence.
  - rewrite String.eqb_eq. split; congruence.
  - revert l'. induction IH as [| x l Hx _ IHl]; intros [| y l'];
      try (split; [discriminate | congruence]); try tauto.
    rewrite andb_true_iff, Hx, IHl. split.
    + intros [-> E]. congruence.
    + intros E. injection E as -> ->. tauto.
Qed.

Lemma obj_eqb_refl (a : obj) : obj_eqb a a = true.
Proof. now apply obj_eqb_eq. Qed.

Lemma obj_eqb_neq (a b : obj) : obj_eqb a b = false <-> a <> b.
Proof.
  rewrite <- obj_eqb_eq. destruct (obj_eqb a b); split; congruence.
Qed.

Lemma obj_eqb_spec (a b : obj) : reflect (a = b) (obj_eqb a b).
Proof. apply iff_reflect. symmetry. apply obj_eqb_eq. Qed.


(** ** Facts about dicts *)

Lemma d_get_none (d : pydict) (k : obj) :
  d_get d k = None <-> ~ In k (map fst d).
Proof.
  induction d as [| [k' v'] d IH]; simpl.
  - tauto.
  - destruct (obj_eqb_spec k' k) as [-> | N].
    + split; [discriminate | tauto].
    + rewrite IH. tauto.
Qed.

Lemma d_get_some_in (d : pydict) (k v : obj) :
  d_get d k = Some v -> In (k, v) d.
Proof.
  induction d as [| [k' v'] d IH]; simpl; [discriminate |].
  destruct (obj_eqb_spec k' k) as [-> | N].
  - intros [= ->]. now left.
  - auto.
Qed.

Lemma in_d_get (d : pydict) (k v : obj) :
  NoDup (map fst d) -> In (k, v) d -> d_get d k = Some v.
Proof.
  induction d as [| [k' v'] d IH]; simpl; [tauto |].
  intros ND [E | I].
  - injection E as -> ->. now rewrite obj_eqb_refl.
  - inversion ND as [| ? ? NI ND']; subst.
    destruct (obj_eqb_spec k' k) as [-> | N].
    + exfalso. apply NI. now apply (in_map fst) in I.
    + auto.
Qed.

Lemma d_get_set_same (d : pydict) (k v : obj) :
  d_get (d_set d k v) k = Some v.
Proof.
  induction d as [| [k' v'] d IH]; simpl.
  - now rewrite obj_eqb_refl.
  - destruct (obj_eqb k' k) eqn:E; simpl; now rewrite E.
Qed.

Lemma d_get_set_other (d : pydict) (k k' v : obj) :
  k <> k' -> d_get (d_set d k v) k' = d_get d k'.
Proof.
  intros N. induction d as [| [k0 v0] d IH]; simpl.
  - apply obj_eqb_neq in N. now rewrite N.
  - destruct (obj_eqb_spec k0 k) as [-> | N0]; simpl.
    + apply obj_eqb_neq in N. now rewrite N.
    + now rewrite IH.
Qed.

Lemma d_set_fresh (d : pydict) (k v : obj) :
  d_get d k = None -> d_set d k v = (d ++ [(k, v)])%list.
Proof.
  induction d as [| [k' v'] d IH]; simpl; [reflexivity |].
  destruct (obj_eqb k' k); [discriminate |].
  intros H. now rewrite IH.
Qed.

Lemma d_set_keys_present (d : pydict) (k v v0 : obj) :
  d_get d k = Some v0 -> map fst (d_set d k v) = map fst d.
Proof.
  induction d as [| [k' v'] d IH]; simpl; [discriminate |].
  destruct (obj_eqb k' k); simpl; [reflexivity |].
  intros H. now rewrite IH.
Qed.

Lemma d_del_keys_incl (d : pydict) (k x : obj) :
  In x (map fst (d_del d k)) -> In x (map fst d).
Proof.
  induction d as [| [k' v'] d IH]; simpl; [tauto |].
  destruct (obj_eqb k' k); simpl; tauto.
Qed.

Lemma d_del_nodup (d : pydict) (k : obj) :
  NoDup (map fst d) -> NoDup (map fst (d_del d k)).
Proof.
  induction d as [| [k' v'] d IH]; simpl; [auto |].
  intros ND. inversion ND as [| ? ? NI ND']; subst.
  destruct (obj_eqb k' k); simpl; [assumption |].
  constructor; [| auto].
  intros I. apply NI. eapply d_del_keys_incl; eauto.
Qed.

Lemma d_get_del_same (d : pydict) (k : obj) :
  NoDup (map fst d) -> d_get (d_del d k) k = None.
Proof.
  induction d as [| [k' v'] d IH]; simpl; [reflexivity |].
  intros ND. inversion ND as [| ? ? NI ND']; subst.
  destruct (obj_eqb_spec k' k) as [-> | N]; simpl.
  - now apply d_get_none.
  - apply obj_eqb_neq in N. rewrite N. auto.
Qed.

Lemma d_get_del_other (d : pydict) (k k' : obj) :
  k <> k' -> d_get (d_del d k) k' = d_get d k'.
Proof.
  intros N. induction d as [| [k0 v0] d IH]; simpl; [reflexivity |].
  destruct (obj_eqb_spec k0 k) as [-> | N0]; simpl.
  - apply obj_eqb_neq in N. now rewrite N.
  - now rewrite IH.
Qed.

Lemma d_set_keys_in (d : pydict) (k v x : obj) :
  In x (map fst (d_set d k v)) <-> x = k \/ In x (map fst d).
Proof.
  induction d as [| [k' v'] d IH]; simpl.
  - intuition congruence.
  - destruct (obj_eqb_spec k' k) as [-> | N]; simpl.
    + intuition congruence.
    + rewrite IH. intuition congruence.
Qed.

Lemma d_set_nodup (d : pydict) (k v : obj) :
  NoDup (map fst d) -> NoDup (map fst (d_set d k v)).
Proof.
  induction d as [| [k' v'] d IH]; simpl.
  - intros _. constructor; [simpl; tauto | constructor].
  - intros ND. inversion ND as [| ? ? NI ND']; subst.
    destruct (obj_eqb_spec k' k) as [-> | N]; simpl.
    + now constructor.
    + constructor; [| auto].
      rewrite d_set_keys_in. intros [E | I]; congruence.
Qed.

(** On dicts (no key twice) [==] is equality of the sets of items. *)
Lemma dict_eqb_true (d1 d2 : pydict) :
  NoDup (map fst d1) -> NoDup (map fst d2) ->
  (dict_eqb d1 d2 = true <-> forall k v, In (k, v) d1 <-> In (k, v) d2).
Proof.
  intros N1 N2. unfold dict_eqb.
  rewrite andb_true_iff, Nat.eqb_eq, forallb_forall. split.
  - intros [L F].
    assert (I12 : incl d1 d2).
    { intros [k v] I. specialize (F _ I). simpl in F.
      destruct (d_get d2 k) as [v' |] eqn:G; [| discriminate].
      apply obj_eqb_eq in F. subst v'. now apply d_get_some_in. }
    assert (I21 : incl d2 d1).
    { apply NoDup_length_incl; [now apply NoDup_map_inv in N1 | lia | exact I12]. }
    intros k v. split; [apply I12 | apply I21].
  - intros H. split.
    + apply Nat.le_antisymm; apply NoDup_incl_length;
        try (eapply NoDup_map_inv; eassumption);
        intros [k v] I; now apply H.
    + intros [k v] I. simpl. apply H in I.
      rewrite (in_d_get _ _ _ N2 I). apply obj_eqb_refl.
Qed.

(** ** The tables of a reachable instance *)

Section Tables.

Variable C : klass.

Lemma linked_folds P D c p :
  Forall2 (linked C) P D -> d_get P c = Some p -> canonicalkey C p = Ok c.
Proof.
  induction 1 as [| [c0 p0] [k0 v0] P D [E K] _ IH]; simpl; [discriminate |].
  simpl in E, K. destruct (obj_eqb_spec c0 c) as [-> | N]; [| exact IH].
  now intros [= <-].
Qed.

Lemma linked_value P D c p :
  Forall2 (linked C) P D -> d_get P c = Some p -> exists v, d_get D p = Some v.
Proof.
  induction 1 as [| [c0 p0] [k0 v0] P D [E K] F IH]; simpl; [discriminate |].
  simpl in E, K. subst k0.
  destruct (obj_eqb_spec c0 c) as [-> | N].
  - intros [= <-]. rewrite obj_eqb_refl. eauto.
  - intros G. destruct (obj_eqb_spec p0 p) as [-> | Np]; [eauto |].
    auto.
Qed.

Lemma linked_absent P D c k :
  Forall2 (linked C) P D -> d_get P c = None -> canonicalkey C k = Ok c ->
  d_get D k = None.
Proof.
  induction 1 as [| [c0 p0] [k0 v0] P D [E K] F IH]; simpl; [reflexivity |].
  simpl in E, K. subst k0.
  destruct (obj_eqb_spec c0 c) as [-> | N]; [discriminate |].
  intros G Hk. destruct (obj_eqb_spec p0 k) as [-> | Np]; [congruence |].
  auto.
Qed.

Lemma linked_del P D c p :
  Forall2 (linked C) P D -> d_get P c = Some p ->
  Forall2 (linked C) (d_del P c) (d_del D p).
Proof.
  induction 1 as [| [c0 p0] [k0 v0] P D [E K] F IH]; simpl; [discriminate |].
  simpl in E, K. subst k0.
  destruct (obj_eqb_spec c0 c) as [-> | N].
  - intros [= <-]. now rewrite obj_eqb_refl.
  - intros G. destruct (obj_eqb_spec p0 p) as [-> | Np].
    + exfalso. apply N. pose proof (linked_folds _ _ _ _ F G). congruence.
    + constructor; [now split | auto].
Qed.

Lemma linked_update P D c p v :
  Forall2 (linked C) P D -> d_get P c = Some p ->
  Forall2 (linked C) P (d_set D p v).
Proof.
  induction 1 as [| [c0 p0] [k0 v0] P D [E K] F IH]; simpl; [discriminate |].
  simpl in E, K. subst k0.
  destruct (obj_eqb_spec c0 c) as [-> | N].
  - intros [= <-]. rewrite obj_eqb_refl. constructor; [now split | exact F].
  - intros G. destruct (obj_eqb_spec p0 p) as [-> | Np].
    + exfalso. apply N. pose proof (linked_folds _ _ _ _ F G). congruence.
    + constructor; [now split | auto].
Qed.

Lemma linked_keys P D :
  Forall2 (linked C) P D -> map snd P = map fst D.
Proof.
  induction 1 as [| [c0 p0] [k0 v0] P D [E K] F IH]; simpl; [reflexivity |].
  simpl in E. now rewrite E, IH.
Qed.


End Tables.

(** ** What each method does, case by case *)

Ltac unfold_methods :=
  unfold __setitem__, _savekey, DKFoldedDict_savekey, CanonFolder_savekey,
    FoldedDict_savekey, __contains__, __delitem__, __getitem__,
    try_except, bind, lift, ret, raise,
    preserves_get, preserves_set, preserves_del,
    dict_get, dict_set, dict_del, d_subscript.

Section Steps.

Variable C : klass.

(** Reading leaves the tables alone, whatever it returns. *)
Lemma getitem_state key s : snd (__getitem__ C key s) = s.
Proof.
  unfold_methods. destruct (canonicalkey C key); simpl; [| reflexivity].
  destruct (d_get (__preserves s) a); simpl; reflexivity.
Qed.

Lemma getitem_raise key s e :
  canonicalkey C key = Raise e -> __getitem__ C key s = (Raise e, s).
Proof. intros H. unfold_methods. now rewrite H. Qed.

Lemma getitem_absent key s c :
  canonicalkey C key = Ok c -> d_get (__preserves s) c = None ->
  __getitem__ C key s = (Raise KeyError, s).
Proof. intros H G. unfold_methods. now rewrite H, G. Qed.

Lemma getitem_present key s c p v :
  canonicalkey C key = Ok c -> d_get (__preserves s) c = Some p ->
  d_get (__dict s) p = Some v ->
  __getitem__ C key s = (Ok v, s).
Proof. intros H G V. unfold_methods. now rewrite H, G, V. Qed.

Lemma contains_raise key s e :
  canonicalkey C key = Raise e -> e <> KeyError ->
  __contains__ C key s = (Raise e, s).
Proof.
  intros H N. unfold_methods. rewrite H. destruct e; simpl; congruence.
Qed.

Lemma contains_absent key s c :
  canonicalkey C key = Ok c -> d_get (__preserves s) c = None ->
  __contains__ C key s = (Ok false, s).
Proof. intros H G. unfold_methods. now rewrite H, G. Qed.

Lemma contains_present key s c p v :
  canonicalkey C key = Ok c -> d_get (__preserves s) c = Some p ->
  d_get (__dict s) p = Some v ->
  __contains__ C key s = (Ok true, s).
Proof. intros H G V. unfold_methods. now rewrite H, G, V. Qed.

Lemma delitem_raise key s e :
  canonicalkey C key = Raise e -> __delitem__ C key s = (Raise e, s).
Proof. intros H. unfold_methods. now rewrite H. Qed.

Lemma delitem_absent key s c :
  canonicalkey C key = Ok c -> d_get (__preserves s) c = None ->
  __delitem__ C key s = (Raise KeyError, s).
Proof. intros H G. unfold_methods. now rewrite H, G. Qed.

Lemma delitem_present key s c p v :
  canonicalkey C key = Ok c -> d_get (__preserves s) c = Some p ->
  d_get (__dict s) p = Some v ->
  __delitem__ C key s =
  (Ok tt, {| __preserves := d_del (__preserves s) c;
             __dict := d_del (__dict s) p |}).
Proof. intros H G V. unfold_methods. rewrite H, G. simpl. now rewrite V. Qed.

Lemma store_raise key val s e :
  canonicalkey C key = Raise e -> store C key val s = (Raise e, s).
Proof. intros H. unfold store. unfold_methods. now rewrite H. Qed.

Lemma store_present key val s c p :
  canonicalkey C key = Ok c -> d_get (__preserves s) c = Some p ->
  store C key val s =
  (Ok tt, {| __preserves := __preserves s;
             __dict := d_set (__dict s) p val |}).
Proof. intros H G. unfold store. unfold_methods. now rewrite H, G. Qed.

Lemma store_absent key val s c :
  canonicalkey C key = Ok c -> d_get (__preserves s) c = None ->
  store C key val s =
  (Ok tt, {| __preserves := d_set (__preserves s) c key;
             __dict := d_set (__dict s) key val |}).
Proof. intros H G. unfold store. unfold_methods. now rewrite H, G. Qed.

(** [__setitem__] in each class, through [store]. *)
Lemma setitem_FoldedDict key val s :
  savekey_of C = OfFoldedDict -> __setitem__ C key val s = store C key val s.
Proof. intros H. unfold __setitem__, _savekey, store. now rewrite H. Qed.

Lemma setitem_CanonFolder key val s :
  savekey_of C = OfCanonFolder ->
  __setitem__ C key val s =
  match canonicalkey C key with
  | Ok k => store C k val s
  | Raise e => (Raise e, s)
  end.
Proof.
  intros H. unfold __setitem__, _savekey, store, CanonFolder_savekey.
  rewrite H. unfold bind at 1 2, lift at 1.
  destruct (canonicalkey C key); reflexivity.
Qed.

Lemma setitem_DKFoldedDict key val s :
  savekey_of C = OfDKFoldedDict ->
  __setitem__ C key val s =
  match __contains__ C key s with
  | (Ok true, s1) =>
      match __delitem__ C key s1 with
      | (Ok _, s2) => store C key val s2
      | (Raise e, s2) => (Raise e, s2)
      end
  | (Ok false, s1) => store C key val s1
  | (Raise e, s1) => (Raise e, s1)
  end.
Proof.
  intros H. unfold __setitem__, _savekey, store, DKFoldedDict_savekey.
  rewrite H. unfold bind at 1 2 3.
  destruct (__contains__ C key s) as [[[|] | e] s1]; try reflexivity.
  - destruct (__delitem__ C key s1) as [[[] | e] s2]; reflexivity.
Qed.

End Steps.

(** ** Every call keeps the two tables in step *)

Section Invariant.

Variable C : klass.

Lemma consistent_empty : consistent C empty.
Proof. split; simpl; constructor. Qed.

Lemma consistent_store key val s :
  consistent C s -> consistent C (snd (store C key val s)).
Proof.
  intros [F N]. destruct (canonicalkey C key) as [c | e] eqn:K.
  - destruct (d_get (__preserves s) c) as [p |] eqn:G.
    + rewrite (store_present C _ _ _ _ _ K G). split; simpl; [| exact N].
      eapply linked_update; eauto.
    + rewrite (store_absent C _ _ _ _ K G). split; simpl.
      * rewrite (d_set_fresh _ _ _ G).
        rewrite (d_set_fresh _ _ val (linked_absent C _ _ _ _ F G K)).
        apply Forall2_app; [exact F |].
        constructor; [now split | constructor].
      * now apply d_set_nodup.
  - rewrite (store_raise C _ _ _ _ K). now split.
Qed.

Lemma consistent_delitem key s :
  consistent C s -> consistent C (snd (__delitem__ C key s)).
Proof.
  intros [F N]. destruct (canonicalkey C key) as [c | e] eqn:K.
  - destruct (d_get (__preserves s) c) as [p |] eqn:G.
    + destruct (linked_value C _ _ _ _ F G) as [v V].
      rewrite (delitem_present C _ _ _ _ _ K G V). split; simpl.
      * eapply linked_del; eauto.
      * now apply d_del_nodup.
    + rewrite (delitem_absent C _ _ _ K G). now split.
  - rewrite (delitem_raise C _ _ _ K). now split.
Qed.

(** [key in self] never writes. *)
Lemma contains_state key s : snd (__contains__ C key s) = s.
Proof.
  unfold_methods. destruct (canonicalkey C key) as [c | e]; simpl.
  - destruct (d_get (__preserves s) c) as [p |]; simpl; [| reflexivity].
    destruct (d_get (__dict s) p); reflexivity.
  - destruct e; reflexivity.
Qed.

Lemma consistent_setitem key val s :
  consistent C s -> consistent C (snd (__setitem__ C key val s)).
Proof.
  intros H. destruct (savekey_of C) eqn:O.
  - rewrite (setitem_FoldedDict C _ _ _ O). now apply consistent_store.
  - rewrite (setitem_CanonFolder C _ _ _ O).
    destruct (canonicalkey C key); [now apply consistent_store | exact H].
  - rewrite (setitem_DKFoldedDict C _ _ _ O).
    pose proof (contains_state key s) as S.
    destruct (__contains__ C key s) as [[[|] | e] s1]; simpl in S; subst s1.
    + pose proof (consistent_delitem key s H) as D.
      destruct (__delitem__ C key s) as [[[] | e] s2]; simpl in D.
      * now apply consistent_store.
      * exact D.
    + now apply consistent_store.
    + exact H.
Qed.

Lemma consistent_after c s : consistent C s -> consistent C (after C c s).
Proof.
  intros H. destruct c as [k v | k | k]; simpl.
  - now apply consistent_setitem.
  - now apply consistent_delitem.
  - now rewrite getitem_state.
Qed.

Lemma reachable_consistent s : reachable C s -> consistent C s.
Proof.
  induction 1; [apply consistent_empty | now apply consistent_after].
Qed.

Lemma reachable_run cs s : reachable C s -> reachable C (run C cs s).
Proof.
  revert s. induction cs as [| c cs IH]; intros s H; simpl; [exact H |].
  apply IH. now constructor.
Qed.

Lemma run_app cs1 cs2 s : run C (cs1 ++ cs2) s = run C cs2 (run C cs1 s).
Proof. apply fold_left_app. Qed.

Lemma reachable_setitems kvs s :
  reachable C s -> reachable C (snd (setitems C kvs s)).
Proof.
  revert s. induction kvs as [| [k v] kvs IH]; intros s H; simpl; [exact H |].
  unfold bind. pose proof (reach_call C (Set_ k v) s H) as R. simpl in R.
  destruct (__setitem__ C k v s) as [[[] | e] s1]; simpl in *; auto.
Qed.

(** The instance [__init__] builds (or leaves behind when a key cannot be
    folded) is reachable. *)
Lemma reachable_init args : reachable C (snd (__init__ C args)).
Proof. apply reachable_setitems. constructor. Qed.

Lemma linked_in P D cp :
  Forall2 (linked C) P D -> In cp P -> canonicalkey C (snd cp) = Ok (fst cp).
Proof.
  induction 1 as [| cp0 kv0 P D [E K] F IH]; simpl; [tauto |].
  intros [<- | I]; auto.
Qed.

Lemma linked_nodup P D :
  Forall2 (linked C) P D -> NoDup (map fst P) -> NoDup (map fst D).
Proof.
  induction 1 as [| [c0 p0] [k0 v0] P D [E K] F IH]; simpl; [constructor |].
  simpl in E, K. subst k0. intros N.
  inversion N as [| ? ? NI N']; subst. constructor; [| auto].
  rewrite <- (linked_keys C _ _ F). intros I.
  apply in_map_iff in I. destruct I as [[c p] [Ep I]]. simpl in Ep. subst p.
  pose proof (linked_in _ _ _ F I) as K'. simpl in K'.
  apply NI. replace c0 with c by congruence.
  now apply (in_map fst) in I.
Qed.

(** On consistent tables the keys of [__dict] are pairwise distinct. *)
Lemma consistent_nodup_dict s : consistent C s -> NoDup (map fst (__dict s)).
Proof. intros [F N]. eapply linked_nodup; eauto. Qed.

End Invariant.

(** ** Fold equivalence and first-seen retention *)

(** C1 (fold equivalence).  On a fresh [FoldedDict], whenever
    [k1.lower() == k2.lower()], the calls [d[k1] = v1] and [d[k2] = v2] both
    return, and afterwards [d[k]] returns [v2] for every string [k] with
    [k.lower() == k1.lower()], and [len(d)] is 1. *)
Theorem fold_equivalence (k1 k2 k : string) (v1 v2 : obj) :
  lower k1 = lower k2 -> lower k = lower k1 ->
  exists s1 s2,
    __setitem__ FoldedDict (PyStr k1) v1 empty = (Ok tt, s1) /\
    __setitem__ FoldedDict (PyStr k2) v2 s1 = (Ok tt, s2) /\
    __getitem__ FoldedDict (PyStr k) s2 = (Ok v2, s2) /\
    __len__ s2 = 1%nat.
Proof.
  intros E12 E.
  exists {| __preserves := [(PyStr (lower k1), PyStr k1)];
            __dict := [(PyStr k1, v1)] |},
         {| __preserves := [(PyStr (lower k1), PyStr k1)];
            __dict := [(PyStr k1, v2)] |}.
  split; [reflexivity |]. split; [| split; [| reflexivity]].
  - unfold_methods. cbn. rewrite <- E12, String.eqb_refl. cbn.
    now rewrite String.eqb_refl.
  - unfold_methods. cbn. rewrite E, String.eqb_refl. cbn.
    now rewrite String.eqb_refl.
Qed.

Lemma fold_equivalence_witness :
  exists s1 s2,
    __setitem__ FoldedDict (PyStr "Clown") (PyStr "Bozo") empty = (Ok tt, s1) /\
    __setitem__ FoldedDict (PyStr "clown") (PyStr "Krusty") s1 = (Ok tt, s2) /\
    __getitem__ FoldedDict (PyStr "CLOWN") s2 = (Ok (PyStr "Krusty"), s2) /\
    __len__ s2 = 1%nat.
Proof.
  apply (fold_equivalence "Clown" "clown" "CLOWN"); reflexivity.
Defined.

(** C2 (first-seen retention).  In a class that keeps
    [FoldedDict._savekey], [d[key] = val] returns; if the canonical key of
    [key] already had a preserved key, [__preserves] is left as it was, and
    if it had none, [key] itself becomes the preserved key.  After
    [d['Clown'] = 'Bozo'; d['clown'] = 'Krusty'] on a fresh [FoldedDict],
    [list(d.keys())] is [['Clown']] and [d['CLOWN']] is ['Krusty']. *)
Theorem first_seen_retention :
  (forall (C : klass) (s : instance) (key val c : obj),
      savekey_of C = OfFoldedDict -> canonicalkey C key = Ok c ->
      exists s', __setitem__ C key val s = (Ok tt, s') /\
        (forall p, d_get (__preserves s) c = Some p ->
                   __preserves s' = __preserves s /\
                   d_get (__preserves s') c = Some p) /\
        (d_get (__preserves s) c = None ->
         d_get (__preserves s') c = Some key)) /\
  (let s := run FoldedDict [Set_ (PyStr "Clown") (PyStr "Bozo");
                             Set_ (PyStr "clown") (PyStr "Krusty")] empty in
   keys s = [PyStr "Clown"] /\
   __getitem__ FoldedDict (PyStr "CLOWN") s = (Ok (PyStr "Krusty"), s)).
Proof.
  split; [| split; reflexivity].
  intros C s key val c O K. rewrite (setitem_FoldedDict C _ _ _ O).
  destruct (d_get (__preserves s) c) as [p |] eqn:G.
  - rewrite (store_present C _ _ _ _ _ K G). eexists. split; [reflexivity |].
    simpl. split; [| discriminate]. intros p' [= <-]. now split.
  - rewrite (store_absent C _ _ _ _ K G). eexists. split; [reflexivity |].
    simpl. split; [discriminate |]. intros _. apply d_get_set_same.
Qed.

Lemma first_seen_retention_witness :
  exists s',
    __setitem__ FoldedDict (PyStr "clown") (PyStr "Krusty")
      {| __preserves := [(PyStr "clown", PyStr "Clown")];
         __dict := [(PyStr "Clown", PyStr "Bozo")] |} = (Ok tt, s') /\
    d_get (__preserves s') (PyStr "clown") = Some (PyStr "Clown").
Proof.
  destruct (proj1 first_seen_retention FoldedDict
              {| __preserves := [(PyStr "clown", PyStr "Clown")];
                 __dict := [(PyStr "Clown", PyStr "Bozo")] |}
              (PyStr "clown") (PyStr "Krusty") (PyStr "clown")
              eq_refl eq_refl) as [s' [S [Hp _]]].
  exists s'. split; [exact S |].
  exact (proj2 (Hp (PyStr "Clown") eq_refl)).
Defined.

(** ** Failed lookups *)

(** C3 (failed lookups are no-ops).  In any class and with any tables, if
    the canonical key of [key] has no row in [__preserves], then [d[key]]
    and [del d[key]] both raise [KeyError] and hand back the two tables
    exactly as they were.  The failed [del] leaves no row for the class:
    a following [d[key] = val], in a class whose [_savekey] is that of
    [FoldedDict] or of [DKFoldedDict], returns and files [key] itself as the
    preserved key, with [val] under it. *)
Theorem failed_lookup_noop (C : klass) (s : instance) (key c : obj) :
  canonicalkey C key = Ok c -> d_get (__preserves s) c = None ->
  __getitem__ C key s = (Raise KeyError, s) /\
  __delitem__ C key s = (Raise KeyError, s) /\
  d_get (__preserves (snd (__delitem__ C key s))) c = None /\
  (savekey_of C <> OfCanonFolder ->
   forall val, exists s',
     __setitem__ C key val (snd (__delitem__ C key s)) = (Ok tt, s') /\
     d_get (__preserves s') c = Some key /\
     d_get (__dict s') key = Some val).
Proof.
  intros K G.
  rewrite (getitem_absent C _ _ _ K G), (delitem_absent C _ _ _ K G). simpl.
  repeat split; [exact G |].
  intros O val.
  assert (S : __setitem__ C key val s = store C key val s).
  { destruct (savekey_of C) eqn:E; [now apply setitem_FoldedDict | congruence |].
    rewrite (setitem_DKFoldedDict C _ _ _ E).
    now rewrite (contains_absent C _ _ _ K G). }
  rewrite S, (store_absent C _ _ _ _ K G). eexists. split; [reflexivity |].
  simpl. split; apply d_get_set_same.
Qed.

Lemma failed_lookup_noop_witness :
  __getitem__ FoldedDict (PyStr "banana") empty = (Raise KeyError, empty) /\
  __delitem__ FoldedDict (PyStr "banana") empty = (Raise KeyError, empty) /\
  d_get (__preserves (snd (__delitem__ FoldedDict (PyStr "banana") empty)))
        (PyStr "banana") = None /\
  (savekey_of FoldedDict <> OfCanonFolder ->
   forall val, exists s',
     __setitem__ FoldedDict (PyStr "banana") val
       (snd (__delitem__ FoldedDict (PyStr "banana") empty)) = (Ok tt, s') /\
     d_get (__preserves s') (PyStr "banana") = Some (PyStr "banana") /\
     d_get (__dict s') (PyStr "banana") = Some val).
Proof.
  apply (failed_lookup_noop FoldedDict empty (PyStr "banana") (PyStr "banana"));
    reflexivity.
Defined.

(** ** Normalisation *)

Lemma lower_ascii_idempotent (c : ascii) :
  lower_ascii (lower_ascii c) = lower_ascii c.
Proof. destruct c as [[] [] [] [] [] [] [] []]; reflexivity. Qed.

Lemma lower_idempotent (s : string) : lower (lower s) = lower s.
Proof.
  induction s as [| c s IH]; simpl; [reflexivity |].
  now rewrite lower_ascii_idempotent, IH.
Qed.

(** [FoldedDict.canonicalkey] never raises: [str] and [bytes] keys are
    lower-cased, every other key comes back unchanged. *)
Lemma FoldedDict_canonicalkey_total (key : obj) :
  FoldedDict_canonicalkey key =
  Ok match key with
     | PyStr s => PyStr (lower s)
     | PyBytes b => PyBytes (lower b)
     | _ => key
     end.
Proof. destruct key; reflexivity. Qed.

Lemma FoldedDict_canonicalkey_idempotent (key c : obj) :
  FoldedDict_canonicalkey key = Ok c -> FoldedDict_canonicalkey c = Ok c.
Proof.
  rewrite FoldedDict_canonicalkey_total. intros [= <-].
  destruct key; simpl; try reflexivity;
    unfold FoldedDict_canonicalkey; simpl; now rewrite lower_idempotent.
Qed.

(** On a [str] key [StrippedWhitespaceDict.canonicalkey] returns a [str]. *)
Lemma StrippedWhitespaceDict_canonicalkey_str (s : string) :
  exists t, StrippedWhitespaceDict_canonicalkey (PyStr s) = Ok (PyStr t).
Proof.
  unfold StrippedWhitespaceDict_canonicalkey, py_split, rbind.
  assert (J : forall ws, exists t, py_join_empty (map PyStr ws) = Ok t).
  { induction ws as [| w ws [t IH]]; simpl; [eauto |].
    rewrite IH. simpl. eauto. }
  destruct (J (split_ws str_isspace "" s)) as [t ->]. eauto.
Qed.

(** C4 (normalisation is total), at the input where the code departs from
    it: [StrippedWhitespaceDict.canonicalkey(1)] evaluates [(1).split()],
    which raises [AttributeError]; the handler is for [TypeError], so the
    exception leaves [canonicalkey], and with it [d[1] = v], [d[1]] and
    [del d[1]] raise as well, on tables left untouched.  The key [None] and
    the tuple [(1, 2)] fare the same; [FoldedDict.canonicalkey] returns all
    three unchanged. *)
Theorem stripped_whitespace_canonicalkey_raises :
  StrippedWhitespaceDict_canonicalkey (PyInt 1) = Raise AttributeError /\
  StrippedWhitespaceDict_canonicalkey PyNone = Raise AttributeError /\
  StrippedWhitespaceDict_canonicalkey (PyTuple [PyInt 1; PyInt 2])
    = Raise AttributeError /\
  (forall v s,
      __setitem__ StrippedWhitespaceDict (PyInt 1) v s
        = (Raise AttributeError, s) /\
      __getitem__ StrippedWhitespaceDict (PyInt 1) s
        = (Raise AttributeError, s) /\
      __delitem__ StrippedWhitespaceDict (PyInt 1) s
        = (Raise AttributeError, s)) /\
  FoldedDict_canonicalkey (PyInt 1) = Ok (PyInt 1) /\
  FoldedDict_canonicalkey PyNone = Ok PyNone /\
  FoldedDict_canonicalkey (PyTuple [PyInt 1; PyInt 2])
    = Ok (PyTuple [PyInt 1; PyInt 2]).
Proof.
  repeat split.
Qed.

(** The [TypeError] handler is the one [bytes] keys reach: [b'a b'.split()]
    is a list of [bytes], which [''.join] refuses. *)
Example stripped_whitespace_bytes :
  StrippedWhitespaceDict_canonicalkey (PyBytes "a b") = Ok (PyBytes "a b") /\
  StrippedWhitespaceDict_canonicalkey (PyStr "   the      clown  ")
    = Ok (PyStr "theclown").
Proof. split; reflexivity. Qed.

(** ** Items and equality *)

Section Items.

Variable C : klass.

(** In a consistent instance every row of [__dict] is what [self[key]]
    returns for its key. *)
Lemma getitem_row s k v :
  consistent C s -> In (k, v) (__dict s) ->
  canonicalkey C k <> Raise KeyError /\ __getitem__ C k s = (Ok v, s).
Proof.
  intros H I. pose proof (consistent_nodup_dict C s H) as ND.
  destruct H as [F N].
  assert (IP : exists c, In (c, k) (__preserves s)).
  { assert (Ik : In k (map snd (__preserves s))).
    { rewrite (linked_keys C _ _ F). now apply (in_map fst) in I. }
    apply in_map_iff in Ik. destruct Ik as [[c p] [E Ic]].
    simpl in E. subst p. eauto. }
  destruct IP as [c Ic].
  pose proof (linked_in C _ _ _ F Ic) as K. simpl in K.
  split; [congruence |].
  apply (getitem_present C k s c k v K); now apply in_d_get.
Qed.

Lemma items_of_rows s D :
  consistent C s -> incl D (__dict s) -> items_of C (map fst D) s = Ok D.
Proof.
  intros H. induction D as [| [k v] D IH]; intros I; simpl; [reflexivity |].
  destruct (getitem_row s k v H) as [_ ->]; [apply I; now left |].
  simpl. rewrite IH; [reflexivity |].
  intros x Ix. apply I. now right.
Qed.

(** [self.items()] is the content of [__dict], in its order. *)
Lemma items_consistent s : consistent C s -> items C s = Ok (__dict s).
Proof. intros H. apply items_of_rows; [exact H | apply incl_refl]. Qed.

Lemma canon_comprehension_rows s P D acc :
  consistent C s -> incl D (__dict s) -> Forall2 (linked C) P D ->
  NoDup (map fst acc ++ map fst P) ->
  canon_comprehension C (map fst D) s acc =
  Ok (acc ++ combine (map fst P) (map snd D))%list.
Proof.
  intros H I F. revert acc I.
  induction F as [| [c0 p0] [k0 v0] P D [E K] F IH]; intros acc I N; simpl.
  - now rewrite app_nil_r.
  - simpl in E, K. subst k0.
    destruct (getitem_row s p0 v0 H) as [_ ->]; [apply I; now left |].
    simpl. rewrite K. simpl.
    assert (G : d_get acc c0 = None).
    { apply d_get_none. intros Ia. simpl in N.
      apply NoDup_remove_2 in N. apply N. apply in_or_app. now left. }
    rewrite (d_set_fresh _ _ _ G), IH.
    + now rewrite <- app_assoc.
    + intros x Ix. apply I. now right.
    + rewrite map_app, <- app_assoc. exact N.
Qed.

Lemma canon_items_consistent s :
  consistent C s -> canon_items C s = Ok (folded_rows s).
Proof.
  intros H. unfold canon_items, __iter__.
  rewrite (canon_comprehension_rows s (__preserves s) (__dict s) []);
    [reflexivity | exact H | apply incl_refl | apply H | apply H].
Qed.

Lemma folded_rows_keys s :
  consistent C s -> map fst (folded_rows s) = map fst (__preserves s).
Proof.
  intros [F _]. unfold folded_rows.
  induction F as [| [c0 p0] [k0 v0] P D _ F IH]; simpl; [reflexivity |].
  now rewrite IH.
Qed.

Lemma folded_rows_length s :
  consistent C s -> List.length (folded_rows s) = List.length (__dict s).
Proof.
  intros H. rewrite <- (length_map fst), (folded_rows_keys s H), length_map.
  apply (Forall2_length (proj1 H)).
Qed.

Lemma folded_rows_in s c v :
  consistent C s ->
  (In (c, v) (folded_rows s) <->
   exists p, In (p, v) (__dict s) /\ canonicalkey C p = Ok c).
Proof.
  intros [F _]. unfold folded_rows.
  induction F as [| [c0 p0] [k0 v0] P D [E K] F IH]; simpl.
  - split; [tauto | now intros [p [[] _]]].
  - simpl in E, K. subst k0. rewrite IH. split.
    + intros [[= <- <-] | [p [I Kp]]]; eauto.
    + intros [p [[[= <- <-] | I] Kp]]; [left; congruence | right; eauto].
Qed.

End Items.

Lemma dict_eqb_nil (d : pydict) :
  dict_eqb d [] = Nat.eqb (List.length d) 0.
Proof. destruct d as [| [k v] d]; reflexivity. Qed.

Lemma eq_plain_consistent (C : klass) (s : instance) (d : pydict) :
  consistent C s -> eq_plain C s d = Ok (dict_eqb (__dict s) d).
Proof.
  intros H. unfold eq_plain. destruct d as [| kv d]; simpl; [| reflexivity].
  rewrite (canon_items_consistent C s H). simpl.
  now rewrite !dict_eqb_nil, (folded_rows_length C s H).
Qed.

(** C5 (equality).  For two reachable instances, of any two classes,
    [a == b] returns, and returns [True] exactly when the two have the same
    set of pairs (canonical key, value), each instance folding the keys of
    its own items with its own [canonicalkey].  Against a plain dict [d],
    [a == d] returns [a.__dict == d], which for a dict is equality of the
    two sets of (key, value) rows. *)
Theorem equality_semantics (Ca Cb : klass) (a b : instance) :
  reachable Ca a -> reachable Cb b ->
  (exists r, __eq__ Ca a (Folding Cb b) = Ok r /\
     (r = true <->
      forall c v, folded_pair Ca a c v <-> folded_pair Cb b c v)) /\
  (forall d, __eq__ Ca a (Plain d) = Ok (dict_eqb (__dict a) d) /\
     (NoDup (map fst d) ->
      (dict_eqb (__dict a) d = true <->
       forall k v, In (k, v) (__dict a) <-> In (k, v) d))).
Proof.
  intros Ra Rb.
  pose proof (reachable_consistent Ca a Ra) as Ha.
  pose proof (reachable_consistent Cb b Rb) as Hb.
  split.
  - exists (dict_eqb (folded_rows a) (folded_rows b)). split.
    + simpl. now rewrite (canon_items_consistent Cb b Hb),
        (canon_items_consistent Ca a Ha).
    + rewrite dict_eqb_true.
      * unfold folded_pair.
        rewrite (items_consistent Ca a Ha), (items_consistent Cb b Hb).
        split; intros E c v.
        -- specialize (E c v).
           rewrite (folded_rows_in Ca a c v Ha), (folded_rows_in Cb b c v Hb) in E.
           split; intros [its [[= <-] [p Hp]]]; eexists; (split; [reflexivity |]);
             apply E; eauto.
        -- rewrite (folded_rows_in Ca a c v Ha), (folded_rows_in Cb b c v Hb).
           specialize (E c v).
           split; intros Hp.
           ++ destruct (proj1 E) as [its [[= <-] R]]; eauto.
           ++ destruct (proj2 E) as [its [[= <-] R]]; eauto.
      * rewrite (folded_rows_keys Ca a Ha). apply Ha.
      * rewrite (folded_rows_keys Cb b Hb). apply Hb.
  - intros d. split.
    + simpl. now apply eq_plain_consistent.
    + intros Nd. apply dict_eqb_true; [| exact Nd].
      now apply consistent_nodup_dict with (C := Ca).
Qed.

Lemma equality_semantics_witness :
  exists r,
    __eq__ FoldedDict
      (run FoldedDict [Set_ (PyStr "banana") (PyStr "gram");
                       Set_ (PyStr "clown") (PyStr "Bozo")] empty)
      (Folding FoldedDict
         (run FoldedDict [Set_ (PyStr "Banana") (PyStr "gram");
                          Set_ (PyStr "CLOWN") (PyStr "Bozo")] empty))
    = Ok r.
Proof.
  destruct (equality_semantics FoldedDict FoldedDict
              (run FoldedDict [Set_ (PyStr "banana") (PyStr "gram");
                               Set_ (PyStr "clown") (PyStr "Bozo")] empty)
              (run FoldedDict [Set_ (PyStr "Banana") (PyStr "gram");
                               Set_ (PyStr "CLOWN") (PyStr "Bozo")] empty)
              (reach_call _ (Set_ (PyStr "clown") (PyStr "Bozo")) _
                 (reach_call _ (Set_ (PyStr "banana") (PyStr "gram")) _
                    (reach_empty _)))
              (reach_call _ (Set_ (PyStr "CLOWN") (PyStr "Bozo")) _
                 (reach_call _ (Set_ (PyStr "Banana") (PyStr "gram")) _
                    (reach_empty _))))
    as [[r [E _]] _].
  exists r. exact E.
Defined.

(** The comparisons of the module's own tests. *)
Example equality_tests :
  let d1 := snd (__init__ FoldedDict [(PyStr "banana", PyStr "gram");
                                      (PyStr "clown", PyStr "Bozo")]) in
  __eq__ FoldedDict d1
    (Folding FoldedDict
       (snd (__init__ FoldedDict [(PyStr "Banana", PyStr "gram");
                                  (PyStr "CLOWN", PyStr "Bozo")]))) = Ok true /\
  __eq__ FoldedDict d1
    (Folding FoldedDict
       (snd (__init__ FoldedDict [(PyStr "Banana", PyStr "GRAM");
                                  (PyStr "CLOWN", PyStr "bozo")]))) = Ok false /\
  __eq__ FoldedDict d1
    (Plain (py_dict [(PyStr "banana", PyStr "gram");
                     (PyStr "clown", PyStr "Bozo")])) = Ok true.
Proof. repeat split. Qed.

(** ** Most-recent retention *)

Lemma most_recent_set (C : klass) (s : instance) (key val c : obj) :
  savekey_of C = OfDKFoldedDict -> reachable C s ->
  canonicalkey C key = Ok c ->
  exists s', __setitem__ C key val s = (Ok tt, s') /\
    d_get (__preserves s') c = Some key /\
    d_get (__dict s') key = Some val /\
    (forall p, d_get (__preserves s) c = Some p ->
       (exists s0, __delitem__ C key s = (Ok tt, s0) /\
                   store C key val s0 = (Ok tt, s')) /\
       __preserves s' = (d_del (__preserves s) c ++ [(c, key)])%list /\
       __dict s' = (d_del (__dict s) p ++ [(key, val)])%list) /\
    (d_get (__preserves s) c = None ->
       __preserves s' = (__preserves s ++ [(c, key)])%list /\
       __dict s' = (__dict s ++ [(key, val)])%list).
Proof.
  intros O R K.
  pose proof (reachable_consistent C s R) as H.
  rewrite (setitem_DKFoldedDict C _ _ _ O).
  destruct (d_get (__preserves s) c) as [p |] eqn:G.
  - destruct (linked_value C _ _ _ _ (proj1 H) G) as [v0 V].
    rewrite (contains_present C _ _ _ _ _ K G V).
    pose proof (consistent_delitem C key s H) as H0.
    rewrite (delitem_present C _ _ _ _ _ K G V) in *. simpl in H0.
    set (s0 := {| __preserves := d_del (__preserves s) c;
                  __dict := d_del (__dict s) p |}) in *.
    assert (G0 : d_get (__preserves s0) c = None)
      by (apply d_get_del_same, H).
    pose proof (linked_absent C _ _ _ _ (proj1 H0) G0 K) as V0.
    rewrite (store_absent C _ _ _ _ K G0).
    eexists. split; [reflexivity |]. simpl.
    rewrite !d_get_set_same.
    split; [reflexivity |]. split; [reflexivity |]. split; [| discriminate].
    intros p' [= <-]. split; [| split].
    + exists s0. split; [reflexivity |]. apply (store_absent C _ _ _ _ K G0).
    + now apply d_set_fresh.
    + now apply d_set_fresh.
  - rewrite (contains_absent C _ _ _ K G), (store_absent C _ _ _ _ K G).
    eexists. split; [reflexivity |]. simpl.
    rewrite !d_get_set_same.
    split; [reflexivity |]. split; [reflexivity |]. split; [discriminate |].
    intros _. split.
    + now apply d_set_fresh.
    + apply d_set_fresh. exact (linked_absent C _ _ _ _ (proj1 H) G K).
Qed.

(** C6 (most-recent retention).  In a class with [DKFoldedDict._savekey],
    on a reachable instance, [d[key] = val] returns and leaves [key] as the
    preserved key of its class, with [val] under it.  When the class had a
    preserved key [p], its rows are first deleted from both tables and the
    new rows go last; when it had none, the new rows go last.  After
    [d['cloWN'] = 'boZO'; d['CLOwn'] = 'BOzo'] on a fresh [DKFoldedDict],
    [list(d.keys())] is [['CLOwn']] and [d['clown']] is ['BOzo']. *)
Theorem most_recent_retention :
  (forall (C : klass) (s : instance) (key val c : obj),
      savekey_of C = OfDKFoldedDict -> reachable C s ->
      canonicalkey C key = Ok c ->
      exists s', __setitem__ C key val s = (Ok tt, s') /\
        d_get (__preserves s') c = Some key /\
        d_get (__dict s') key = Some val /\
        (forall p, d_get (__preserves s) c = Some p ->
           (exists s0, __delitem__ C key s = (Ok tt, s0) /\
                       store C key val s0 = (Ok tt, s')) /\
           __preserves s' = (d_del (__preserves s) c ++ [(c, key)])%list /\
           __dict s' = (d_del (__dict s) p ++ [(key, val)])%list) /\
        (d_get (__preserves s) c = None ->
           __preserves s' = (__preserves s ++ [(c, key)])%list /\
           __dict s' = (__dict s ++ [(key, val)])%list)) /\
  (let s := run DKFoldedDict [Set_ (PyStr "cloWN") (PyStr "boZO");
                               Set_ (PyStr "CLOwn") (PyStr "BOzo")] empty in
   keys s = [PyStr "CLOwn"] /\
   __getitem__ DKFoldedDict (PyStr "clown") s = (Ok (PyStr "BOzo"), s)).
Proof.
  split; [| split; reflexivity].
  intros C s key val c. apply most_recent_set.
Qed.

Lemma most_recent_retention_witness :
  exists s',
    __setitem__ DKFoldedDict (PyStr "CLOwn") (PyStr "BOzo")
      (after DKFoldedDict (Set_ (PyStr "cloWN") (PyStr "boZO")) empty)
    = (Ok tt, s') /\
    d_get (__preserves s') (PyStr "clown") = Some (PyStr "CLOwn").
Proof.
  destruct (proj1 most_recent_retention DKFoldedDict
              (after DKFoldedDict (Set_ (PyStr "cloWN") (PyStr "boZO")) empty)
              (PyStr "CLOwn") (PyStr "BOzo") (PyStr "clown") eq_refl
              (reach_call _ (Set_ (PyStr "cloWN") (PyStr "boZO")) _
                 (reach_empty _))
              eq_refl) as [s' [S [Hp _]]].
  exists s'. split; [exact S | exact Hp].
Defined.

(** ** Canonical retention *)

Lemma d_del_forall (Q : obj * obj -> Prop) (d : pydict) (k : obj) :
  Forall Q d -> Forall Q (d_del d k).
Proof.
  induction 1 as [| [k' v'] d HQ F IH]; simpl; [constructor |].
  destruct (obj_eqb k' k); [exact F | now constructor].
Qed.

Lemma d_get_forall (Q : obj * obj -> Prop) (d : pydict) (k v : obj) :
  Forall Q d -> d_get d k = Some v -> Q (k, v).
Proof.
  intros F G. apply d_get_some_in in G.
  rewrite Forall_forall in F. now apply F.
Qed.

Section Canonical.

Variable C : klass.
Hypothesis canon_savekey : savekey_of C = OfCanonFolder.
Hypothesis idempotent :
  forall k c, canonicalkey C k = Ok c -> canonicalkey C c = Ok c.

(** Every row of [__preserves] files a key under itself. *)
Lemma canonical_rows s :
  reachable C s -> Forall (fun cp => snd cp = fst cp) (__preserves s).
Proof.
  induction 1 as [| [k v | k | k] s R IH]; simpl.
  - constructor.
  - rewrite (setitem_CanonFolder C _ _ _ canon_savekey).
    destruct (canonicalkey C k) as [c | e] eqn:K; [| exact IH].
    pose proof (idempotent _ _ K) as Kc.
    destruct (d_get (__preserves s) c) as [p |] eqn:G.
    + now rewrite (store_present C _ _ _ _ _ Kc G).
    + rewrite (store_absent C _ _ _ _ Kc G). simpl.
      rewrite (d_set_fresh _ _ _ G). apply Forall_app. split; [exact IH |].
      now repeat constructor.
  - pose proof (reachable_consistent C s R) as H.
    destruct (canonicalkey C k) as [c | e] eqn:K.
    + destruct (d_get (__preserves s) c) as [p |] eqn:G.
      * destruct (linked_value C _ _ _ _ (proj1 H) G) as [v V].
        rewrite (delitem_present C _ _ _ _ _ K G V). simpl.
        now apply d_del_forall.
      * now rewrite (delitem_absent C _ _ _ K G).
    + now rewrite (delitem_raise C _ _ _ K).
  - now rewrite getitem_state.
Qed.

Lemma canonical_preserved s c p :
  reachable C s -> d_get (__preserves s) c = Some p -> p = c.
Proof.
  intros R G. exact (d_get_forall _ _ _ _ (canonical_rows s R) G).
Qed.

Lemma canonical_keys s :
  reachable C s -> keys s = map fst (__preserves s).
Proof.
  intros R. unfold keys, __iter__.
  rewrite <- (linked_keys C _ _ (proj1 (reachable_consistent C s R))).
  pose proof (canonical_rows s R) as F.
  induction F as [| [c p] P E F IH]; simpl; [reflexivity |].
  simpl in E. now rewrite E, IH.
Qed.

Lemma canonical_set s key val c :
  reachable C s -> canonicalkey C key = Ok c ->
  exists s', __setitem__ C key val s = (Ok tt, s') /\
             d_get (__preserves s') c = Some c /\
             d_get (__dict s') c = Some val.
Proof.
  intros R K. pose proof (idempotent _ _ K) as Kc.
  rewrite (setitem_CanonFolder C _ _ _ canon_savekey), K.
  destruct (d_get (__preserves s) c) as [p |] eqn:G.
  - pose proof (canonical_preserved s c p R G) as ->.
    rewrite (store_present C _ _ _ _ _ Kc G).
    eexists. split; [reflexivity |]. simpl.
    split; [exact G | apply d_get_set_same].
  - rewrite (store_absent C _ _ _ _ Kc G).
    eexists. split; [reflexivity |]. simpl.
    split; apply d_get_set_same.
Qed.

End Canonical.

(** C7 (canonical retention).  In every reachable [CanonFolder], whatever
    calls produced it, each canonical key with a row in [__preserves] is its
    own preserved key, so [keys()] lists the canonical keys themselves, and
    [d[key] = val] returns with [canonicalkey(key)] as the preserved key of
    the class of [key].  After [d['Clown'] = 'Bozo'; d['clown'] = 'Krusty']
    on a fresh [CanonFolder], [list(d.keys())] is [['clown']]. *)
Theorem canonical_retention :
  (forall s, reachable CanonFolder s ->
     (forall c p, d_get (__preserves s) c = Some p -> p = c) /\
     keys s = map fst (__preserves s) /\
     (forall key val c, canonicalkey CanonFolder key = Ok c ->
        exists s', __setitem__ CanonFolder key val s = (Ok tt, s') /\
                   d_get (__preserves s') c = Some c /\
                   d_get (__dict s') c = Some val)) /\
  keys (run CanonFolder [Set_ (PyStr "Clown") (PyStr "Bozo");
                         Set_ (PyStr "clown") (PyStr "Krusty")] empty)
  = [PyStr "clown"].
Proof.
  split; [| reflexivity].
  intros s R. split; [| split].
  - intros c p. now apply (canonical_preserved CanonFolder eq_refl
                             FoldedDict_canonicalkey_idempotent).
  - now apply (canonical_keys CanonFolder eq_refl
                 FoldedDict_canonicalkey_idempotent).
  - intros key val c. now apply (canonical_set CanonFolder eq_refl
                                   FoldedDict_canonicalkey_idempotent).
Qed.

Lemma canonical_retention_witness :
  keys (after CanonFolder (Set_ (PyStr "Clown") (PyStr "Bozo")) empty)
  = map fst (__preserves
               (after CanonFolder (Set_ (PyStr "Clown") (PyStr "Bozo")) empty)).
Proof.
  exact (proj1 (proj2 (proj1 canonical_retention
           (after CanonFolder (Set_ (PyStr "Clown") (PyStr "Bozo")) empty)
           (reach_call _ (Set_ (PyStr "Clown") (PyStr "Bozo")) _
              (reach_empty _))))).
Defined.

(** ** The two tables agree *)

Lemma consistent_tables_agree (C : klass) (s : instance) :
  consistent C s -> tables_agree s.
Proof.
  intros H. pose proof (consistent_nodup_dict C s H) as ND.
  destruct H as [F N]. pose proof (linked_keys C _ _ F) as E.
  split; [apply (Forall2_length F) |].
  split; [intros p; now rewrite E |].
  split; [exact N |]. split; [now rewrite E |].
  intros c p I.
  assert (Ip : In p (map fst (__dict s))).
  { rewrite <- E. now apply (in_map snd) in I. }
  apply in_map_iff in Ip. destruct Ip as [[p' v] [Ep Iv]].
  simpl in Ep. subst p'. exists v. split; [exact Iv |].
  intros v' Iv'. apply (in_d_get _ _ _ ND) in Iv, Iv'. congruence.
Qed.

(** C9 (table consistency and length).  Whatever [__init__] is given, and
    after any set or delete on a reachable instance of any class, whether
    the call returned or raised: [__preserves] and [__dict] have the same
    number of rows, the preserved keys in [__preserves] are exactly the keys
    of [__dict], without repetition, each row of [__preserves] has exactly
    one row of [__dict] under its preserved key, and [len()] is that common
    number of rows, one per populated class (no canonical key is filed
    twice). *)
Theorem table_consistency (C : klass) :
  (forall args, let s := snd (__init__ C args) in
     tables_agree s /\ __len__ s = List.length (__preserves s)) /\
  (forall s, reachable C s ->
     (tables_agree s /\ __len__ s = List.length (__preserves s)) /\
     (forall key val, let s' := snd (__setitem__ C key val s) in
        tables_agree s' /\ __len__ s' = List.length (__preserves s')) /\
     (forall key, let s' := snd (__delitem__ C key s) in
        tables_agree s' /\ __len__ s' = List.length (__preserves s'))).
Proof.
  assert (A : forall s, reachable C s ->
            tables_agree s /\ __len__ s = List.length (__preserves s)).
  { intros s R. pose proof (reachable_consistent C s R) as H.
    split; [now apply consistent_tables_agree with (C := C) |].
    symmetry. apply (Forall2_length (proj1 H)). }
  split.
  - intros args. apply A, reachable_init.
  - intros s R. split; [now apply A |]. split.
    + intros key val. apply A. exact (reach_call C (Set_ key val) s R).
    + intros key. apply A. exact (reach_call C (Del key) s R).
Qed.

Lemma table_consistency_witness :
  tables_agree
    (after DKFoldedDict (Set_ (PyStr "cloWN") (PyStr "boZO")) empty) /\
  __len__ (after DKFoldedDict (Set_ (PyStr "cloWN") (PyStr "boZO")) empty)
  = 1%nat.
Proof.
  exact (proj1 (proj2 (table_consistency DKFoldedDict)
           (after DKFoldedDict (Set_ (PyStr "cloWN") (PyStr "boZO")) empty)
           (reach_call _ (Set_ (PyStr "cloWN") (PyStr "boZO")) _
              (reach_empty _)))).
Defined.

(** ** Preserved keys fold back to their canonical key *)

(** C10 (round trip).  For a class whose [canonicalkey] is idempotent, and
    any [_savekey] of the three, in every reachable instance each row
    [(c, p)] of [__preserves] has [canonicalkey(p) == c]; and when the
    lookup of [canonicalkey(key)] in [__preserves] finds [p], the lookup of
    [p] in [__dict] finds a value, which is what [d[key]] returns. *)
Theorem preserved_key_round_trip (C : klass) (s : instance) :
  (forall k c, canonicalkey C k = Ok c -> canonicalkey C c = Ok c) ->
  reachable C s ->
  (forall c p, In (c, p) (__preserves s) -> canonicalkey C p = Ok c) /\
  (forall key c p,
      canonicalkey C key = Ok c -> d_get (__preserves s) c = Some p ->
      exists v, d_get (__dict s) p = Some v /\
                __getitem__ C key s = (Ok v, s)).
Proof.
  intros _ R. pose proof (reachable_consistent C s R) as [F N]. split.
  - intros c p I. exact (linked_in C _ _ _ F I).
  - intros key c p K G. destruct (linked_value C _ _ _ _ F G) as [v V].
    exists v. split; [exact V |]. now apply (getitem_present C key s c p v).
Qed.

Lemma preserved_key_round_trip_witness :
  exists v,
    d_get (__dict (after CanonFolder (Set_ (PyStr "Clown") (PyStr "Bozo")) empty))
          (PyStr "clown") = Some v /\
    __getitem__ CanonFolder (PyStr "CLOWN")
      (after CanonFolder (Set_ (PyStr "Clown") (PyStr "Bozo")) empty)
    = (Ok v, after CanonFolder (Set_ (PyStr "Clown") (PyStr "Bozo")) empty).
Proof.
  exact (proj2 (preserved_key_round_trip CanonFolder
                  (after CanonFolder (Set_ (PyStr "Clown") (PyStr "Bozo")) empty)
                  FoldedDict_canonicalkey_idempotent
                  (reach_call _ (Set_ (PyStr "Clown") (PyStr "Bozo")) _
                     (reach_empty _)))
           (PyStr "CLOWN") (PyStr "clown") (PyStr "clown") eq_refl eq_refl).
Defined.

(** ** The order of iteration *)



Lemma l_del_keys (d : pydict) (k : obj) :
  map fst (d_del d k) = l_del (map fst d) k.
Proof.
  induction d as [| [k' v'] d IH]; simpl; [reflexivity |].
  destruct (obj_eqb k' k); simpl; [reflexivity | now rewrite IH].
Qed.


Section Order.

Variable C : klass.

Lemma setitem_raise_state key val s e :
  canonicalkey C key = Raise e -> snd (__setitem__ C key val s) = s.
Proof.
  intros K. destruct (savekey_of C) eqn:O.
  - now rewrite (setitem_FoldedDict C _ _ _ O), (store_raise C _ _ _ _ K).
  - now rewrite (setitem_CanonFolder C _ _ _ O), K.
  - rewrite (setitem_DKFoldedDict C _ _ _ O).
    unfold __contains__, try_except, bind at 1.
    rewrite (getitem_raise C _ _ _ K).
    destruct (exn_eqb KeyError e); simpl;
      [now rewrite (store_raise C _ _ _ _ K) | reflexivity].
Qed.



Hypothesis idempotent_if_canonical :
  savekey_of C = OfCanonFolder ->
  forall k c, canonicalkey C k = Ok c -> canonicalkey C c = Ok c.

(** What a set of a populated class does to the two tables. *)
Lemma set_populated s key val c p :
  reachable C s -> canonicalkey C key = Ok c ->
  d_get (__preserves s) c = Some p ->
  let s' := after C (Set_ key val) s in
  if refiles C
  then __preserves s' = (d_del (__preserves s) c ++ [(c, key)])%list /\
       __dict s' = (d_del (__dict s) p ++ [(key, val)])%list
  else __preserves s' = __preserves s /\
       __dict s' = d_set (__dict s) p val.
Proof.
  intros R K G. simpl. unfold refiles. destruct (savekey_of C) eqn:O.
  - rewrite (setitem_FoldedDict C _ _ _ O), (store_present C _ _ _ _ _ K G).
    now split.
  - rewrite (setitem_CanonFolder C _ _ _ O), K.
    rewrite (store_present C _ _ _ _ _ (idempotent_if_canonical eq_refl _ _ K) G).
    now split.
  - destruct (most_recent_set C s key val c O R K) as [s' [-> [_ [_ [Hp _]]]]].
    simpl. destruct (Hp p G) as [_ E]. exact E.
Qed.

(** What a set of an unpopulated class does to the two tables; [k] is the
    key the class's [_savekey] hands to [FoldedDict._savekey]. *)
Lemma set_unpopulated s key val c :
  reachable C s -> canonicalkey C key = Ok c ->
  d_get (__preserves s) c = None ->
  let s' := after C (Set_ key val) s in
  let k := match savekey_of C with OfCanonFolder => c | _ => key end in
  __preserves s' = (__preserves s ++ [(c, k)])%list /\
  __dict s' = (__dict s ++ [(k, val)])%list.
Proof.
  intros R K G. simpl. pose proof (reachable_consistent C s R) as [F _].
  destruct (savekey_of C) eqn:O.
  - rewrite (setitem_FoldedDict C _ _ _ O), (store_absent C _ _ _ _ K G).
    simpl. rewrite (d_set_fresh _ _ _ G).
    now rewrite (d_set_fresh _ _ val (linked_absent C _ _ _ _ F G K)).
  - pose proof (idempotent_if_canonical eq_refl _ _ K) as Kc.
    rewrite (setitem_CanonFolder C _ _ _ O), K, (store_absent C _ _ _ _ Kc G).
    simpl. rewrite (d_set_fresh _ _ _ G).
    now rewrite (d_set_fresh _ _ val (linked_absent C _ _ _ _ F G Kc)).
  - destruct (most_recent_set C s key val c O R K) as [s' [-> [_ [_ [_ Hn]]]]].
    simpl. exact (Hn G).
Qed.




End Order.




(** ** The module's own tests *)

Example test_keyerror :
  let d := empty in
  __getitem__ FoldedDict (PyStr "banana") d = (Raise KeyError, d) /\
  keys (after FoldedDict (Set_ (PyStr "baNANA") (PyInt 42)) d)
  = [PyStr "baNANA"].
Proof. split; reflexivity. Qed.

Example test_deltwice :
  let d := snd (__init__ FoldedDict [(PyStr "banana", PyStr "gram")]) in
  let d1 := after FoldedDict (Del (PyStr "BANANA")) d in
  __delitem__ FoldedDict (PyStr "BANANA") d = (Ok tt, d1) /\
  __delitem__ FoldedDict (PyStr "Banana") d1 = (Raise KeyError, d1) /\
  keys (after FoldedDict (Set_ (PyStr "baNANA") (PyInt 42)) d1)
  = [PyStr "baNANA"].
Proof. repeat split. Qed.

Example test_init :
  let d := snd (__init__ FoldedDict [(PyStr "banana", PyInt 1);
                                     (PyStr "Banana", PyInt 2)]) in
  __len__ d = 1%nat /\
  __getitem__ FoldedDict (PyStr "BANANA") d = (Ok (PyInt 2), d) /\
  keys d = [PyStr "banana"].
Proof. repeat split. Qed.

Example test_notstrings :
  let d := run FoldedDict
             [Set_ (PyInt 1) (PyInt 1); Set_ PyNone PyNone;
              Set_ (PyTuple [PyInt 1; PyInt 2]) (PyTuple [PyInt 1; PyInt 2])]
             empty in
  __len__ d = 3%nat /\
  items FoldedDict d
  = Ok [(PyInt 1, PyInt 1); (PyNone, PyNone);
        (PyTuple [PyInt 1; PyInt 2], PyTuple [PyInt 1; PyInt 2])].
Proof. split; reflexivity. Qed.

Example test_SWD :
  let d := snd (__init__ StrippedWhitespaceDict
                  [(PyStr "theclown", PyStr "Bozo")]) in
  __getitem__ StrippedWhitespaceDict (PyStr "   the      clown  ") d
  = (Ok (PyStr "Bozo"), d).
Proof. reflexivity. Qed.

Example test_cf2 :
  let d := run CanonFolder [Set_ (PyStr "Clown") (PyStr "Bozo");
                            Set_ (PyStr "CLOWN") (PyStr "Krusty")] empty in
  __getitem__ CanonFolder (PyStr "cLOwn") d = (Ok (PyStr "Krusty"), d) /\
  keys d = [PyStr "clown"].
Proof. split; reflexivity. Qed.

Example test_DK1 :
  let d1 := after DKFoldedDict (Set_ (PyStr "cloWN") (PyStr "boZO")) empty in
  let d2 := after DKFoldedDict (Set_ (PyStr "CLOwn") (PyStr "BOzo")) d1 in
  __getitem__ DKFoldedDict (PyStr "clown") d1 = (Ok (PyStr "boZO"), d1) /\
  keys d1 = [PyStr "cloWN"] /\
  __getitem__ DKFoldedDict (PyStr "clown") d2 = (Ok (PyStr "BOzo"), d2) /\
  keys d2 = [PyStr "CLOwn"].
Proof. repeat split. Qed.

(** * The laws of the mapping *)

(** ** Lookup through both tables *)

Lemma getitem_lookup (C : klass) (key : obj) (s : instance) :
  __getitem__ C key s =
  (match canonicalkey C key with
   | Ok c => match lookup s c with
             | Some v => Ok v
             | None => Raise KeyError
             end
   | Raise e => Raise e
   end, s).
Proof.
  unfold lookup. unfold_methods.
  destruct (canonicalkey C key) as [c | e]; [| reflexivity].
  destruct (d_get (__preserves s) c) as [p |]; [| reflexivity].
  destruct (d_get (__dict s) p); reflexivity.
Qed.

Lemma contains_lookup (C : klass) (key c : obj) (s : instance) :
  canonicalkey C key = Ok c ->
  __contains__ C key s =
  (Ok (match lookup s c with Some _ => true | None => false end), s).
Proof.
  intros K. unfold __contains__, try_except, bind.
  rewrite getitem_lookup, K. destruct (lookup s c); reflexivity.
Qed.

Section Lookup.

Variable C : klass.

Lemma lookup_populated s c p :
  consistent C s -> d_get (__preserves s) c = Some p ->
  exists v, lookup s c = Some v.
Proof.
  intros [F _] G. unfold lookup. rewrite G. exact (linked_value C _ _ _ _ F G).
Qed.

Lemma store_returns key val s c :
  canonicalkey C key = Ok c -> fst (store C key val s) = Ok tt.
Proof.
  intros K. destruct (d_get (__preserves s) c) as [p |] eqn:G.
  - now rewrite (store_present C _ _ _ _ _ K G).
  - now rewrite (store_absent C _ _ _ _ K G).
Qed.

Lemma store_lookup_same key val s c :
  canonicalkey C key = Ok c ->
  lookup (snd (store C key val s)) c = Some val.
Proof.
  intros K. unfold lookup. destruct (d_get (__preserves s) c) as [p |] eqn:G.
  - rewrite (store_present C _ _ _ _ _ K G). simpl. rewrite G.
    apply d_get_set_same.
  - rewrite (store_absent C _ _ _ _ K G). simpl.
    now rewrite !d_get_set_same.
Qed.

Lemma store_lookup_other key val s c c' :
  consistent C s -> canonicalkey C key = Ok c -> c' <> c ->
  lookup (snd (store C key val s)) c' = lookup s c'.
Proof.
  intros [F _] K N. unfold lookup.
  destruct (d_get (__preserves s) c) as [p |] eqn:G.
  - rewrite (store_present C _ _ _ _ _ K G). simpl.
    destruct (d_get (__preserves s) c') as [p' |] eqn:G'; [| reflexivity].
    apply d_get_set_other. intros <-.
    pose proof (linked_folds C _ _ _ _ F G). 
    pose proof (linked_folds C _ _ _ _ F G'). congruence.
  - rewrite (store_absent C _ _ _ _ K G). simpl.
    rewrite d_get_set_other by congruence.
    destruct (d_get (__preserves s) c') as [p' |] eqn:G'; [| reflexivity].
    apply d_get_set_other. intros <-.
    pose proof (linked_folds C _ _ _ _ F G'). congruence.
Qed.

Lemma delitem_lookup_same key s c p :
  consistent C s -> canonicalkey C key = Ok c ->
  d_get (__preserves s) c = Some p ->
  fst (__delitem__ C key s) = Ok tt /\
  lookup (snd (__delitem__ C key s)) c = None.
Proof.
  intros [F N] K G. destruct (linked_value C _ _ _ _ F G) as [v V].
  rewrite (delitem_present C _ _ _ _ _ K G V). split; [reflexivity |].
  unfold lookup. simpl. now rewrite (d_get_del_same _ _ N).
Qed.

Lemma delitem_lookup_other key s c' :
  consistent C s -> canonicalkey C key <> Ok c' ->
  lookup (snd (__delitem__ C key s)) c' = lookup s c'.
Proof.
  intros [F N] K. destruct (canonicalkey C key) as [c | e] eqn:Kc.
  - destruct (d_get (__preserves s) c) as [p |] eqn:G.
    + destruct (linked_value C _ _ _ _ F G) as [v V].
      rewrite (delitem_present C _ _ _ _ _ Kc G V). unfold lookup. simpl.
      rewrite d_get_del_other by congruence.
      destruct (d_get (__preserves s) c') as [p' |] eqn:G'; [| reflexivity].
      apply d_get_del_other. intros <-.
      pose proof (linked_folds C _ _ _ _ F G).
      pose proof (linked_folds C _ _ _ _ F G'). congruence.
    + now rewrite (delitem_absent C _ _ _ Kc G).
  - now rewrite (delitem_raise C _ _ _ Kc).
Qed.

Hypothesis idempotent_if_canonical :
  savekey_of C = OfCanonFolder ->
  forall k c, canonicalkey C k = Ok c -> canonicalkey C c = Ok c.

(** [__setitem__] on consistent tables, as a delete (in [DKFoldedDict],
    of a populated class) followed by [store] of the key its [_savekey]
    hands on. *)
Lemma setitem_via_store key val s c :
  consistent C s -> canonicalkey C key = Ok c ->
  exists s0 k,
    __setitem__ C key val s = store C k val s0 /\
    canonicalkey C k = Ok c /\ consistent C s0 /\
    (forall c', c' <> c -> lookup s0 c' = lookup s c') /\
    (s0 = s \/ savekey_of C = OfDKFoldedDict /\
               exists p, d_get (__preserves s) c = Some p /\
                         __delitem__ C key s = (Ok tt, s0)).
Proof.
  intros H K. destruct (savekey_of C) eqn:O.
  - exists s, key. rewrite (setitem_FoldedDict C _ _ _ O). tauto.
  - exists s, c. rewrite (setitem_CanonFolder C _ _ _ O), K.
    pose proof (idempotent_if_canonical eq_refl _ _ K). tauto.
  - rewrite (setitem_DKFoldedDict C _ _ _ O), (contains_lookup C _ _ _ K).
    destruct (d_get (__preserves s) c) as [p |] eqn:G.
    + destruct (lookup_populated s c p H G) as [v ->].
      destruct (linked_value C _ _ _ _ (proj1 H) G) as [v0 V].
      pose proof (consistent_delitem C key s H) as H0.
      pose proof (fun c' N => delitem_lookup_other key s c' H
                    (fun E => N (eq_sym (f_equal
                       (fun r => match r with Ok x => x | Raise _ => c end)
                       (eq_trans (eq_sym K) E))))) as L.
      rewrite (delitem_present C _ _ _ _ _ K G V) in *. simpl in H0, L.
      eexists _, key. split; [reflexivity |]. split; [exact K |].
      split; [exact H0 |]. split; [exact L |].
      right. split; [reflexivity |]. exists p. now split.
    + unfold lookup. rewrite G. exists s, key. tauto.
Qed.

Lemma setitem_returns key val s c :
  consistent C s -> canonicalkey C key = Ok c ->
  fst (__setitem__ C key val s) = Ok tt.
Proof.
  intros H K. destruct (setitem_via_store key val s c H K)
    as [s0 [k [-> [Kk _]]]].
  exact (store_returns k val s0 c Kk).
Qed.

Lemma setitem_lookup_same key val s c :
  consistent C s -> canonicalkey C key = Ok c ->
  lookup (snd (__setitem__ C key val s)) c = Some val.
Proof.
  intros H K. destruct (setitem_via_store key val s c H K)
    as [s0 [k [-> [Kk _]]]].
  exact (store_lookup_same k val s0 c Kk).
Qed.

Lemma setitem_lookup_other key val s c c' :
  consistent C s -> canonicalkey C key = Ok c -> c' <> c ->
  lookup (snd (__setitem__ C key val s)) c' = lookup s c'.
Proof.
  intros H K N. destruct (setitem_via_store key val s c H K)
    as [s0 [k [-> [Kk [H0 [L _]]]]]].
  rewrite (store_lookup_other k val s0 c c' H0 Kk N). now apply L.
Qed.

End Lookup.

(** ** Set, get, delete and membership *)

Lemma real_classes_idempotent :
  idempotent_if_canonical FoldedDict /\ idempotent_if_canonical CanonFolder /\
  idempotent_if_canonical DKFoldedDict /\
  idempotent_if_canonical StrippedWhitespaceDict.
Proof.
  repeat split; intros O; try discriminate O.
  exact FoldedDict_canonicalkey_idempotent.
Qed.

(** X1 (get after set).  On a reachable instance of any class (with
    [CanonFolder._savekey], for an idempotent [canonicalkey]), if
    [canonicalkey(key)] returns then [d[key] = val] returns, and afterwards
    [d[k]] returns [val] and [k in d] is [True] for every [k] with the same
    canonical key. *)
Theorem get_after_set (C : klass) (s : instance) (key val k c : obj) :
  idempotent_if_canonical C -> reachable C s ->
  canonicalkey C key = Ok c -> canonicalkey C k = Ok c ->
  exists s', __setitem__ C key val s = (Ok tt, s') /\
             __getitem__ C k s' = (Ok val, s') /\
             __contains__ C k s' = (Ok true, s').
Proof.
  intros I R K Kk. pose proof (reachable_consistent C s R) as H.
  pose proof (setitem_returns C I key val s c H K) as E.
  pose proof (setitem_lookup_same C I key val s c H K) as L.
  destruct (__setitem__ C key val s) as [r s']. simpl in E, L. subst r.
  exists s'. split; [reflexivity |].
  now rewrite getitem_lookup, (contains_lookup C _ _ _ Kk), Kk, L.
Qed.

Lemma get_after_set_witness :
  exists s',
    __setitem__ DKFoldedDict (PyStr "CLOwn") (PyStr "BOzo")
      (after DKFoldedDict (Set_ (PyStr "cloWN") (PyStr "boZO")) empty)
    = (Ok tt, s') /\
    __getitem__ DKFoldedDict (PyStr "clown") s' = (Ok (PyStr "BOzo"), s') /\
    __contains__ DKFoldedDict (PyStr "clown") s' = (Ok true, s').
Proof.
  apply (get_after_set DKFoldedDict
           (after DKFoldedDict (Set_ (PyStr "cloWN") (PyStr "boZO")) empty)
           (PyStr "CLOwn") (PyStr "BOzo") (PyStr "clown") (PyStr "clown")).
  - intros O. discriminate O.
  - apply reach_call, reach_empty.
  - reflexivity.
  - reflexivity.
Defined.

(** X2 (a set leaves the other classes alone).  Under the same conditions,
    for every key [k'] whose canonical key is not that of [key] (or whose
    [canonicalkey] raises), [d[k']] after [d[key] = val] returns or raises
    exactly what it did before. *)
Theorem set_keeps_other_classes (C : klass) (s : instance)
    (key val k' c : obj) :
  idempotent_if_canonical C -> reachable C s ->
  canonicalkey C key = Ok c -> canonicalkey C k' <> Ok c ->
  fst (__getitem__ C k' (snd (__setitem__ C key val s)))
  = fst (__getitem__ C k' s).
Proof.
  intros I R K N. pose proof (reachable_consistent C s R) as H.
  rewrite !getitem_lookup. simpl.
  destruct (canonicalkey C k') as [c' |]; [| reflexivity].
  rewrite (setitem_lookup_other C I key val s c c' H K); congruence.
Qed.

Lemma set_keeps_other_classes_witness :
  fst (__getitem__ FoldedDict (PyStr "banana")
         (snd (__setitem__ FoldedDict (PyStr "CLOWN") (PyStr "Krusty")
                 (run FoldedDict [Set_ (PyStr "Banana") (PyStr "gram");
                                  Set_ (PyStr "clown") (PyStr "Bozo")] empty))))
  = fst (__getitem__ FoldedDict (PyStr "banana")
           (run FoldedDict [Set_ (PyStr "Banana") (PyStr "gram");
                            Set_ (PyStr "clown") (PyStr "Bozo")] empty)).
Proof.
  apply (set_keeps_other_classes FoldedDict _ (PyStr "CLOWN") (PyStr "Krusty")
           (PyStr "banana") (PyStr "clown")).
  - intros O. discriminate O.
  - apply (reachable_run FoldedDict), reach_empty.
  - reflexivity.
  - discriminate.
Defined.

Lemma d_del_length (d : pydict) (k v : obj) :
  d_get d k = Some v -> S (List.length (d_del d k)) = List.length d.
Proof.
  induction d as [| [k' v'] d IH]; simpl; [discriminate |].
  destruct (obj_eqb k' k); simpl; [reflexivity |].
  intros G. now rewrite IH.
Qed.

(** X3 (delete).  On a reachable instance of any class, when [key in d] is
    [True], [del d[key]] returns; afterwards every [k] of the class of [key]
    has [d[k]] raise [KeyError] and [k in d] be [False], every other key
    reads as before, and [len(d)] has gone down by one. *)
Theorem delete_removes_class (C : klass) (s : instance) (key c : obj) :
  reachable C s -> canonicalkey C key = Ok c ->
  fst (__contains__ C key s) = Ok true ->
  exists s', __delitem__ C key s = (Ok tt, s') /\
    (forall k, canonicalkey C k = Ok c ->
       __getitem__ C k s' = (Raise KeyError, s') /\
       __contains__ C k s' = (Ok false, s')) /\
    (forall k', canonicalkey C k' <> Ok c ->
       fst (__getitem__ C k' s') = fst (__getitem__ C k' s)) /\
    S (__len__ s') = __len__ s.
Proof.
  intros R K B. pose proof (reachable_consistent C s R) as H.
  rewrite (contains_lookup C _ _ _ K) in B. simpl in B. unfold lookup in B.
  destruct (d_get (__preserves s) c) as [p |] eqn:G; [| discriminate].
  destruct (linked_value C _ _ _ _ (proj1 H) G) as [v V].
  destruct (delitem_lookup_same C key s c p H K G) as [_ L].
  pose proof (fun c' => delitem_lookup_other C key s c' H) as L'.
  rewrite (delitem_present C _ _ _ _ _ K G V) in *. simpl in L, L'.
  eexists. split; [reflexivity |]. split; [| split].
  - intros k Kk.
    now rewrite getitem_lookup, (contains_lookup C _ _ _ Kk), Kk, L.
  - intros k' N. rewrite !getitem_lookup. simpl.
    destruct (canonicalkey C k') as [c' |]; [| reflexivity].
    rewrite L'; [reflexivity | congruence].
  - unfold __len__. simpl. exact (d_del_length _ _ _ V).
Qed.

Lemma delete_removes_class_witness :
  exists s',
    __delitem__ FoldedDict (PyStr "BANANA")
      (after FoldedDict (Set_ (PyStr "banana") (PyStr "gram")) empty)
    = (Ok tt, s') /\
    __getitem__ FoldedDict (PyStr "Banana") s' = (Raise KeyError, s').
Proof.
  destruct (delete_removes_class FoldedDict
              (after FoldedDict (Set_ (PyStr "banana") (PyStr "gram")) empty)
              (PyStr "BANANA") (PyStr "banana")
              (reach_call _ (Set_ (PyStr "banana") (PyStr "gram")) _
                 (reach_empty _))
              eq_refl eq_refl) as [s' [D [G _]]].
  exists s'. split; [exact D |].
  exact (proj1 (G (PyStr "Banana") eq_refl)).
Defined.

(** X4 (membership).  On a reachable instance of any class, for a key
    that [canonicalkey] accepts, [key in d] returns without touching the
    tables, and it is [True] exactly when [keys()] holds a key with the same
    canonical key, exactly when [d[key]] returns a value, and exactly when
    [del d[key]] would return. *)
Theorem membership (C : klass) (s : instance) (key c : obj) :
  reachable C s -> canonicalkey C key = Ok c ->
  exists b, __contains__ C key s = (Ok b, s) /\
    (b = true <-> exists p, In p (keys s) /\ canonicalkey C p = Ok c) /\
    (b = true <-> exists v, __getitem__ C key s = (Ok v, s)) /\
    (b = true <-> fst (__delitem__ C key s) = Ok tt) /\
    (b = false <-> __delitem__ C key s = (Raise KeyError, s)).
Proof.
  intros R K. pose proof (reachable_consistent C s R) as H.
  pose proof H as [F N].
  rewrite (contains_lookup C _ _ _ K), getitem_lookup, K.
  destruct (d_get (__preserves s) c) as [p |] eqn:G.
  - destruct (lookup_populated C s c p H G) as [v L]. rewrite L.
    destruct (delitem_lookup_same C key s c p H K G) as [D _].
    exists true. split; [reflexivity |].
    split; [| split; [| split]].
    + split; [intros _ | reflexivity]. exists p. split.
      * unfold keys, __iter__. rewrite <- (linked_keys C _ _ F).
        apply d_get_some_in in G. now apply (in_map snd) in G.
      * exact (linked_folds C _ _ _ _ F G).
    + split; [eauto | reflexivity].
    + tauto.
    + split; [discriminate |]. intros E. rewrite E in D. discriminate D.
  - unfold lookup. rewrite G, (delitem_absent C _ _ _ K G).
    exists false. split; [reflexivity |].
    split; [| split; [| split]].
    + split; [discriminate |]. intros [p [I Kp]]. exfalso.
      unfold keys, __iter__ in I. rewrite <- (linked_keys C _ _ F) in I.
      apply in_map_iff in I. destruct I as [[c' p'] [E I]]. simpl in E. subst p'.
      pose proof (linked_in C _ _ _ F I) as K'. simpl in K'.
      assert (c' = c) by congruence. subst c'.
      apply (in_d_get _ _ _ N) in I. congruence.
    + split; [discriminate |]. intros [v E]. discriminate E.
    + split; discriminate.
    + tauto.
Qed.

Lemma membership_witness :
  exists b,
    __contains__ FoldedDict (PyStr "CLOWN")
      (after FoldedDict (Set_ (PyStr "Clown") (PyStr "Bozo")) empty)
    = (Ok b, after FoldedDict (Set_ (PyStr "Clown") (PyStr "Bozo")) empty).
Proof.
  destruct (membership FoldedDict
              (after FoldedDict (Set_ (PyStr "Clown") (PyStr "Bozo")) empty)
              (PyStr "CLOWN") (PyStr "clown")
              (reach_call _ (Set_ (PyStr "Clown") (PyStr "Bozo")) _
                 (reach_empty _))
              eq_refl) as [b [E _]].
  exists b. exact E.
Defined.

(** X5 (length after a set).  On a reachable instance of any class (with
    [CanonFolder._savekey], for an idempotent [canonicalkey]), a set whose
    class is already populated leaves [len(d)] unchanged, also under
    [DKFoldedDict]; a set of an unpopulated class raises it by one. *)
Theorem len_after_set (C : klass) (s : instance) (key val c : obj) :
  idempotent_if_canonical C -> reachable C s ->
  canonicalkey C key = Ok c ->
  __len__ (snd (__setitem__ C key val s)) =
  match fst (__contains__ C key s) with
  | Ok true => __len__ s
  | _ => S (__len__ s)
  end.
Proof.
  intros I R K. pose proof (reachable_consistent C s R) as H.
  rewrite (contains_lookup C _ _ _ K). simpl. unfold lookup, __len__.
  destruct (d_get (__preserves s) c) as [p |] eqn:G.
  - destruct (linked_value C _ _ _ _ (proj1 H) G) as [v V]. rewrite V.
    pose proof (set_populated C I s key val c p R K G) as E.
    cbv zeta in E. simpl in E.
    destruct (refiles C); destruct E as [_ ->].
    + rewrite length_app. simpl. rewrite Nat.add_1_r.
      exact (d_del_length _ _ _ V).
    + rewrite <- (length_map fst), (d_set_keys_present _ _ _ _ V).
      apply length_map.
  - pose proof (set_unpopulated C I s key val c R K G) as E.
    cbv zeta in E. simpl in E. destruct E as [_ ->].
    rewrite length_app. simpl. apply Nat.add_1_r.
Qed.

Lemma len_after_set_witness :
  __len__ (snd (__setitem__ DKFoldedDict (PyStr "CLOwn") (PyStr "BOzo")
                  (after DKFoldedDict (Set_ (PyStr "cloWN") (PyStr "boZO"))
                     empty)))
  = 1%nat.
Proof.
  refine (len_after_set DKFoldedDict
            (after DKFoldedDict (Set_ (PyStr "cloWN") (PyStr "boZO")) empty)
            (PyStr "CLOwn") (PyStr "BOzo") (PyStr "clown") _
            (reach_call _ (Set_ (PyStr "cloWN") (PyStr "boZO")) _
               (reach_empty _))
            eq_refl).
  intros O. discriminate O.
Defined.

(** X6 (a call that raises changes nothing).  On a reachable instance of
    any class, with any [canonicalkey]: when [d[key] = val] raises, the
    tables are as before and the exception is one [canonicalkey] raised, on
    [key] or (in [CanonFolder]) on the canonical key of [key]; when
    [del d[key]] raises, the tables are as before and either [canonicalkey]
    raised it or it is the [KeyError] of a key that is not in [d]. *)
Theorem raising_call_changes_nothing (C : klass) (s : instance) :
  reachable C s ->
  (forall key val e s',
      __setitem__ C key val s = (Raise e, s') ->
      s' = s /\
      (canonicalkey C key = Raise e \/
       exists k, savekey_of C = OfCanonFolder /\
                 canonicalkey C key = Ok k /\ canonicalkey C k = Raise e)) /\
  (forall key e s',
      __delitem__ C key s = (Raise e, s') ->
      s' = s /\
      (canonicalkey C key = Raise e \/
       e = KeyError /\ fst (__contains__ C key s) = Ok false)).
Proof.
  intros R. pose proof (reachable_consistent C s R) as H. split.
  - intros key val e s' E.
    assert (St : forall k s0 e0 s1, store C k val s0 = (Raise e0, s1) ->
                   s1 = s0 /\ canonicalkey C k = Raise e0).
    { intros k s0 e0 s1 E0. destruct (canonicalkey C k) as [c | e1] eqn:K.
      - pose proof (store_returns C k val s0 c K) as Rt.
        rewrite E0 in Rt. discriminate Rt.
      - rewrite (store_raise C _ _ _ _ K) in E0. injection E0 as -> ->.
        now split. }
    destruct (savekey_of C) eqn:O.
    + rewrite (setitem_FoldedDict C _ _ _ O) in E.
      destruct (St _ _ _ _ E) as [-> Kr]. auto.
    + rewrite (setitem_CanonFolder C _ _ _ O) in E.
      destruct (canonicalkey C key) as [k | e1] eqn:K.
      * destruct (St _ _ _ _ E) as [-> Kr]. split; [reflexivity |].
        right. exists k. auto.
      * injection E as -> ->. auto.
    + destruct (canonicalkey C key) as [c | e1] eqn:K.
      * pose proof (setitem_via_store C (fun O' => ltac:(congruence))
                      key val s c H K) as [s0 [k [E0 [Kk _]]]].
        rewrite E0 in E. pose proof (store_returns C k val s0 c Kk) as Rt.
        rewrite E in Rt. discriminate Rt.
      * pose proof (setitem_raise_state C key val s e1 K) as S1.
        rewrite E in S1. simpl in S1. subst s'. split; [reflexivity |].
        left. rewrite (setitem_DKFoldedDict C _ _ _ O) in E.
        unfold __contains__, try_except, bind at 1 in E.
        rewrite (getitem_raise C _ _ _ K) in E.
        destruct (exn_eqb KeyError e1) eqn:X; simpl in E.
        -- rewrite (store_raise C _ _ _ _ K) in E. congruence.
        -- congruence.
  - intros key e s' E. destruct (canonicalkey C key) as [c | e1] eqn:K.
    + rewrite (contains_lookup C _ _ _ K). simpl. unfold lookup.
      destruct (d_get (__preserves s) c) as [p |] eqn:G.
      * destruct (delitem_lookup_same C key s c p H K G) as [D _].
        rewrite E in D. discriminate D.
      * rewrite (delitem_absent C _ _ _ K G) in E. injection E as <- <-.
        auto.
    + rewrite (delitem_raise C _ _ _ K) in E. injection E as <- <-. auto.
Qed.

Lemma raising_call_changes_nothing_witness :
  after FoldedDict (Set_ (PyStr "banana") (PyStr "gram")) empty
  = after FoldedDict (Set_ (PyStr "banana") (PyStr "gram")) empty /\
  (canonicalkey FoldedDict (PyStr "clown") = Raise KeyError \/
   KeyError = KeyError /\
   fst (__contains__ FoldedDict (PyStr "clown")
          (after FoldedDict (Set_ (PyStr "banana") (PyStr "gram")) empty))
   = Ok false).
Proof.
  exact (proj2 (raising_call_changes_nothing FoldedDict
                  (after FoldedDict (Set_ (PyStr "banana") (PyStr "gram")) empty)
                  (reach_call _ (Set_ (PyStr "banana") (PyStr "gram")) _
                     (reach_empty _)))
           (PyStr "clown") KeyError
           (after FoldedDict (Set_ (PyStr "banana") (PyStr "gram")) empty)
           eq_refl).
Defined.

(** ** Copy and construction *)

Lemma py_dict_rows (rows acc : pydict) :
  NoDup (map fst (acc ++ rows)) ->
  fold_left (fun d kv => d_set d (fst kv) (snd kv)) rows acc
  = (acc ++ rows)%list.
Proof.
  revert acc. induction rows as [| [k v] rows IH]; intros acc N; simpl.
  - now rewrite app_nil_r.
  - assert (G : d_get acc k = None).
    { apply d_get_none. intros I. rewrite map_app in N. simpl in N.
      apply NoDup_remove_2 in N. apply N. apply in_or_app. now left. }
    rewrite (d_set_fresh _ _ _ G), IH; rewrite <- app_assoc; [reflexivity |].
    exact N.
Qed.

Lemma py_dict_of_dict (d : pydict) : NoDup (map fst d) -> py_dict d = d.
Proof. intros N. apply (py_dict_rows d []). exact N. Qed.

Section Rebuild.

Variable C : klass.
Hypothesis idem : idempotent_if_canonical C.

(** A set of an unpopulated class, on consistent tables. *)
Lemma setitem_unpopulated s key val c :
  consistent C s -> canonicalkey C key = Ok c ->
  d_get (__preserves s) c = None ->
  let k := match savekey_of C with OfCanonFolder => c | _ => key end in
  __setitem__ C key val s =
  (Ok tt, {| __preserves := (__preserves s ++ [(c, k)])%list;
             __dict := (__dict s ++ [(k, val)])%list |}).
Proof.
  intros [F _] K G. simpl. destruct (savekey_of C) eqn:O.
  - rewrite (setitem_FoldedDict C _ _ _ O), (store_absent C _ _ _ _ K G).
    rewrite (d_set_fresh _ _ _ G).
    now rewrite (d_set_fresh _ _ val (linked_absent C _ _ _ _ F G K)).
  - pose proof (idem O _ _ K) as Kc.
    rewrite (setitem_CanonFolder C _ _ _ O), K, (store_absent C _ _ _ _ Kc G).
    rewrite (d_set_fresh _ _ _ G).
    now rewrite (d_set_fresh _ _ val (linked_absent C _ _ _ _ F G Kc)).
  - rewrite (setitem_DKFoldedDict C _ _ _ O), (contains_absent C _ _ _ K G).
    rewrite (store_absent C _ _ _ _ K G), (d_set_fresh _ _ _ G).
    now rewrite (d_set_fresh _ _ val (linked_absent C _ _ _ _ F G K)).
Qed.

(** Setting the rows of consistent tables, in order, rebuilds them. *)
Lemma setitems_rebuild P1 D1 :
  Forall2 (linked C) P1 D1 ->
  (savekey_of C = OfCanonFolder -> Forall (fun cp => snd cp = fst cp) P1) ->
  forall P0 D0,
    Forall2 (linked C) P0 D0 -> NoDup (map fst (P0 ++ P1)) ->
    setitems C D1 {| __preserves := P0; __dict := D0 |}
    = (Ok tt, {| __preserves := (P0 ++ P1)%list; __dict := (D0 ++ D1)%list |}).
Proof.
  induction 1 as [| [c p] [k v] P1 D1 [E K] F1 IH]; intros Cn P0 D0 F0 N; simpl.
  - now rewrite !app_nil_r.
  - simpl in E, K. subst k.
    assert (N0 : NoDup (map fst P0)).
    { rewrite map_app in N. now apply NoDup_app_remove_r in N. }
    assert (G : d_get P0 c = None).
    { apply d_get_none. intros I. rewrite map_app in N. simpl in N.
      apply NoDup_remove_2 in N. apply N. apply in_or_app. now left. }
    unfold bind.
    rewrite (setitem_unpopulated {| __preserves := P0; __dict := D0 |}
               p v c (conj F0 N0) K G). simpl.
    assert (Ek : match savekey_of C with OfCanonFolder => c | _ => p end = p).
    { destruct (savekey_of C) eqn:O; try reflexivity.
      specialize (Cn eq_refl). inversion Cn as [| ? ? Ecp _]. now simpl in Ecp. }
    rewrite Ek, IH.
    + now rewrite <- !app_assoc.
    + intros O. specialize (Cn O). now inversion Cn.
    + apply Forall2_app; [exact F0 |]. constructor; [now split | constructor].
    + now rewrite <- app_assoc.
Qed.

End Rebuild.

Lemma eq_folding_consistent (Ca Cb : klass) (a b : instance) :
  consistent Ca a -> consistent Cb b ->
  __eq__ Ca a (Folding Cb b) = Ok (dict_eqb (folded_rows a) (folded_rows b)).
Proof.
  intros Ha Hb. simpl.
  now rewrite (canon_items_consistent Cb b Hb), (canon_items_consistent Ca a Ha).
Qed.

Lemma folded_rows_nodup (C : klass) (s : instance) :
  consistent C s -> NoDup (map fst (folded_rows s)).
Proof. intros H. rewrite (folded_rows_keys C s H). apply H. Qed.

Lemma dict_eqb_refl (d : pydict) : NoDup (map fst d) -> dict_eqb d d = true.
Proof. intros N. apply dict_eqb_true; tauto. Qed.

Lemma dict_eqb_sym (d1 d2 : pydict) :
  NoDup (map fst d1) -> NoDup (map fst d2) -> dict_eqb d1 d2 = dict_eqb d2 d1.
Proof.
  intros N1 N2.
  destruct (dict_eqb d1 d2) eqn:E12; destruct (dict_eqb d2 d1) eqn:E21;
    try reflexivity.
  - pose proof (proj1 (dict_eqb_true d1 d2 N1 N2) E12) as S.
    assert (T : dict_eqb d2 d1 = true).
    { apply dict_eqb_true; try assumption. intros k v. symmetry. apply S. }
    congruence.
  - pose proof (proj1 (dict_eqb_true d2 d1 N2 N1) E21) as S.
    assert (T : dict_eqb d1 d2 = true).
    { apply dict_eqb_true; try assumption. intros k v. symmetry. apply S. }
    congruence.
Qed.

Lemma dict_eqb_trans (d1 d2 d3 : pydict) :
  NoDup (map fst d1) -> NoDup (map fst d2) -> NoDup (map fst d3) ->
  dict_eqb d1 d2 = true -> dict_eqb d2 d3 = true -> dict_eqb d1 d3 = true.
Proof.
  intros N1 N2 N3 E12 E23.
  pose proof (proj1 (dict_eqb_true d1 d2 N1 N2) E12) as S12.
  pose proof (proj1 (dict_eqb_true d2 d3 N2 N3) E23) as S23.
  apply dict_eqb_true; try assumption.
  intros k v. now rewrite S12, S23.
Qed.

(** X7 (copy).  On a reachable instance of any class (with
    [CanonFolder._savekey], for an idempotent [canonicalkey]), [copy()]
    returns an instance whose two tables are those of the original, row for
    row: the same preserved keys, in the same order, with the same values;
    so the copy compares equal to the original. *)
Theorem copy_reproduces (C : klass) (s : instance) :
  idempotent_if_canonical C -> reachable C s ->
  copy C s = Ok s /\ __eq__ C s (Folding C s) = Ok true.
Proof.
  intros I R. pose proof (reachable_consistent C s R) as H. split.
  - unfold copy, __init__.
    rewrite (items_consistent C s H). simpl.
    rewrite (py_dict_of_dict _ (consistent_nodup_dict C s H)).
    unfold empty.
    rewrite (setitems_rebuild C I (__preserves s) (__dict s) (proj1 H)).
    + now destruct s.
    + intros O. exact (canonical_rows C O (I O) s R).
    + constructor.
    + apply H.
  - rewrite (eq_folding_consistent C C s s H H).
    now rewrite (dict_eqb_refl _ (folded_rows_nodup C s H)).
Qed.

Lemma copy_reproduces_witness :
  copy DKFoldedDict (run DKFoldedDict reordering_history empty)
  = Ok (run DKFoldedDict reordering_history empty).
Proof.
  refine (proj1 (copy_reproduces DKFoldedDict
                   (run DKFoldedDict reordering_history empty) _
                   (reachable_run DKFoldedDict reordering_history empty
                      (reach_empty _)))).
  intros O. discriminate O.
Defined.

(** X8 (equality is an equivalence).  Between reachable instances, of any
    classes, [==] always returns; it is reflexive and symmetric, and
    transitive across three instances. *)
Theorem eq_is_equivalence (Ca Cb Cc : klass) (a b c : instance) :
  reachable Ca a -> reachable Cb b -> reachable Cc c ->
  __eq__ Ca a (Folding Ca a) = Ok true /\
  __eq__ Ca a (Folding Cb b) = __eq__ Cb b (Folding Ca a) /\
  (__eq__ Ca a (Folding Cb b) = Ok true ->
   __eq__ Cb b (Folding Cc c) = Ok true ->
   __eq__ Ca a (Folding Cc c) = Ok true).
Proof.
  intros Ra Rb Rc.
  pose proof (reachable_consistent Ca a Ra) as Ha.
  pose proof (reachable_consistent Cb b Rb) as Hb.
  pose proof (reachable_consistent Cc c Rc) as Hc.
  pose proof (folded_rows_nodup Ca a Ha) as Na.
  pose proof (folded_rows_nodup Cb b Hb) as Nb.
  pose proof (folded_rows_nodup Cc c Hc) as Nc.
  rewrite !eq_folding_consistent by assumption.
  split; [now rewrite dict_eqb_refl |].
  split; [now rewrite (dict_eqb_sym _ _ Na Nb) |].
  intros [= E1] [= E2]. f_equal.
  exact (dict_eqb_trans _ _ _ Na Nb Nc E1 E2).
Qed.

Lemma eq_is_equivalence_witness :
  __eq__ FoldedDict
    (after FoldedDict (Set_ (PyStr "Clown") (PyStr "Bozo")) empty)
    (Folding CanonFolder
       (after CanonFolder (Set_ (PyStr "CLOWN") (PyStr "Bozo")) empty))
  = __eq__ CanonFolder
      (after CanonFolder (Set_ (PyStr "CLOWN") (PyStr "Bozo")) empty)
      (Folding FoldedDict
         (after FoldedDict (Set_ (PyStr "Clown") (PyStr "Bozo")) empty)).
Proof.
  exact (proj1 (proj2 (eq_is_equivalence FoldedDict CanonFolder FoldedDict
           (after FoldedDict (Set_ (PyStr "Clown") (PyStr "Bozo")) empty)
           (after CanonFolder (Set_ (PyStr "CLOWN") (PyStr "Bozo")) empty)
           empty
           (reach_call _ (Set_ (PyStr "Clown") (PyStr "Bozo")) _ (reach_empty _))
           (reach_call _ (Set_ (PyStr "CLOWN") (PyStr "Bozo")) _ (reach_empty _))
           (reach_empty _)))).
Defined.

Section Construction.

Variable C : klass.
Hypothesis idem : idempotent_if_canonical C.

Lemma folds_to_spec k c :
  folds_to C k c = true <-> canonicalkey C k = Ok c.
Proof.
  unfold folds_to. destruct (canonicalkey C k) as [c' | e].
  - rewrite obj_eqb_eq. split; congruence.
  - split; discriminate.
Qed.

(** Setting rows one after the other: each class ends with the value of
    its last row. *)
Lemma setitems_lookup kvs :
  Forall (fun kv => exists c, canonicalkey C (fst kv) = Ok c) kvs ->
  forall s, consistent C s ->
    fst (setitems C kvs s) = Ok tt /\
    consistent C (snd (setitems C kvs s)) /\
    forall c, lookup (snd (setitems C kvs s)) c =
              match last_in_class C kvs c with
              | Some v => Some v
              | None => lookup s c
              end.
Proof.
  induction 1 as [| [k v] kvs [ck K] F IH]; intros s H; simpl.
  - auto.
  - simpl in K. unfold bind.
    pose proof (setitem_returns C idem k v s ck H K) as E.
    pose proof (consistent_setitem C k v s H) as H1.
    pose proof (setitem_lookup_same C idem k v s ck H K) as Ls.
    pose proof (fun c' => setitem_lookup_other C idem k v s ck c' H K) as Lo.
    destruct (__setitem__ C k v s) as [r s1]. simpl in E, H1, Ls, Lo. subst r.
    destruct (IH s1 H1) as [E' [H' L']].
    split; [exact E' |]. split; [exact H' |].
    intros c. rewrite L'. destruct (last_in_class C kvs c); [reflexivity |].
    destruct (folds_to C k c) eqn:Fk.
    + apply folds_to_spec in Fk. assert (c = ck) by congruence. now subst c.
    + apply Lo. intros ->. apply folds_to_spec in K. congruence.
Qed.

End Construction.

Lemma py_dict_keys_incl (args : list (obj * obj)) (acc : pydict) (k : obj) :
  In k (map fst (fold_left (fun d kv => d_set d (fst kv) (snd kv)) args acc)) ->
  In k (map fst acc) \/ In k (map fst args).
Proof.
  revert acc. induction args as [| [k' v'] args IH]; intros acc I; simpl in *.
  - now left.
  - destruct (IH _ I) as [Ia | Ia]; [| tauto].
    apply d_set_keys_in in Ia. simpl in Ia. intuition congruence.
Qed.

(** X9 (construction).  For any class (with [CanonFolder._savekey], for an
    idempotent [canonicalkey]) and any arguments whose keys [canonicalkey]
    accepts, [__init__] returns, and [d[k]] then returns the value of the
    last row of [dict(args)] whose key folds like [k], or raises [KeyError]
    when no row does.  The rows are those of [dict(args)], in its order:
    a key that [args] repeats keeps the place of its first occurrence. *)
Theorem init_last_row_wins (C : klass) (args : list (obj * obj)) :
  idempotent_if_canonical C ->
  Forall (fun kv => exists c, canonicalkey C (fst kv) = Ok c) args ->
  exists s', __init__ C args = (Ok tt, s') /\ reachable C s' /\
    forall k c, canonicalkey C k = Ok c ->
      __getitem__ C k s' =
      (match last_in_class C (py_dict args) c with
       | Some v => Ok v
       | None => Raise KeyError
       end, s').
Proof.
  intros I F.
  assert (F' : Forall (fun kv => exists c, canonicalkey C (fst kv) = Ok c)
                 (py_dict args)).
  { rewrite Forall_forall in *. intros [k v] Ik.
    apply (in_map fst) in Ik. simpl in Ik.
    destruct (py_dict_keys_incl args [] k Ik) as [[] | Ia].
    apply in_map_iff in Ia. destruct Ia as [[k' v'] [E Ia]].
    simpl in E. subst k'. exact (F _ Ia). }
  destruct (setitems_lookup C I (py_dict args) F' empty (consistent_empty C))
    as [E [_ L]].
  pose proof (reachable_init C args) as R. unfold __init__ in *.
  destruct (setitems C (py_dict args) empty) as [r s']. simpl in *. subst r.
  exists s'. split; [reflexivity |]. split; [exact R |].
  intros k c K. rewrite getitem_lookup, K, L.
  now destruct (last_in_class C (py_dict args) c).
Qed.

Lemma init_last_row_wins_witness :
  exists s',
    __init__ FoldedDict [(PyStr "a", PyInt 1); (PyStr "A", PyInt 2);
                         (PyStr "a", PyInt 3)] = (Ok tt, s') /\
    __getitem__ FoldedDict (PyStr "a") s' = (Ok (PyInt 2), s').
Proof.
  destruct (init_last_row_wins FoldedDict
              [(PyStr "a", PyInt 1); (PyStr "A", PyInt 2); (PyStr "a", PyInt 3)])
    as [s' [E [_ G]]].
  - intros O. discriminate O.
  - repeat constructor; simpl; eexists; reflexivity.
  - exists s'. split; [exact E |]. exact (G (PyStr "a") (PyStr "a") eq_refl).
Defined.

(** ** The canonical keys of the classes *)









(** X11 (the classes that fold by [lower()] never refuse a key).  In
    [FoldedDict], [CanonFolder] and [DKFoldedDict], on a reachable
    instance, [d[key] = val] returns for every key, and [d[key]],
    [del d[key]] either return or raise [KeyError], with the tables
    unchanged when they raise. *)
Theorem lower_classes_accept_every_key (C : klass) (s : instance)
    (key val : obj) :
  canonicalkey C = FoldedDict_canonicalkey -> reachable C s ->
  fst (__setitem__ C key val s) = Ok tt /\
  (forall e s', __getitem__ C key s = (Raise e, s') ->
                e = KeyError /\ s' = s) /\
  (forall e s', __delitem__ C key s = (Raise e, s') ->
                e = KeyError /\ s' = s).
Proof.
  intros D R. pose proof (reachable_consistent C s R) as H.
  assert (K : canonicalkey C key = Ok match key with
                                      | PyStr s => PyStr (lower s)
                                      | PyBytes b => PyBytes (lower b)
                                      | _ => key
                                      end)
    by (rewrite D; apply FoldedDict_canonicalkey_total).
  assert (I : idempotent_if_canonical C).
  { intros _ k c. rewrite D. apply FoldedDict_canonicalkey_idempotent. }
  split; [exact (setitem_returns C I key val s _ H K) |]. split.
  - intros e s'. rewrite getitem_lookup, K.
    destruct (lookup s _); intros [= <- <-]. now split.
  - intros e s' E.
    destruct (d_get (__preserves s) match key with
                                    | PyStr s => PyStr (lower s)
                                    | PyBytes b => PyBytes (lower b)
                                    | _ => key
                                    end) as [p |] eqn:G.
    + destruct (delitem_lookup_same C key s _ p H K G) as [Dl _].
      rewrite E in Dl. discriminate Dl.
    + rewrite (delitem_absent C _ _ _ K G) in E. injection E as <- <-.
      now split.
Qed.

Lemma lower_classes_accept_every_key_witness :
  fst (__setitem__ CanonFolder (PyTuple [PyInt 1; PyStr "A"]) PyNone
         (after CanonFolder (Set_ (PyStr "Clown") (PyStr "Bozo")) empty))
  = Ok tt.
Proof.
  exact (proj1 (lower_classes_accept_every_key CanonFolder
                  (after CanonFolder (Set_ (PyStr "Clown") (PyStr "Bozo")) empty)
                  (PyTuple [PyInt 1; PyStr "A"]) PyNone eq_refl
                  (reach_call _ (Set_ (PyStr "Clown") (PyStr "Bozo")) _
                     (reach_empty _)))).
Defined.

Lemma canonical_dict_rows (C : klass) (P D : pydict) :
  Forall2 (linked C) P D -> Forall (fun cp => snd cp = fst cp) P ->
  D = combine (map fst P) (map snd D).
Proof.
  induction 1 as [| [c p] [k v] P D [Ek K] F IH]; intros Cn; simpl;
    [reflexivity |].
  simpl in Ek. inversion Cn as [| ? ? Ep Cn']. simpl in Ep.
  rewrite <- (IH Cn'). congruence.
Qed.

(** X12 ([CanonFolder] against a plain dict).  A reachable [CanonFolder]
    keeps its values under the canonical keys themselves, so it compares
    equal to a plain dict exactly when the dict holds its pairs
    (canonical key, value). *)
Theorem canonfolder_equals_plain (s : instance) (d : pydict) :
  reachable CanonFolder s -> NoDup (map fst d) ->
  __dict s = folded_rows s /\
  exists r, __eq__ CanonFolder s (Plain d) = Ok r /\
    (r = true <->
     forall c v, folded_pair CanonFolder s c v <-> In (c, v) d).
Proof.
  intros R Nd. pose proof (reachable_consistent CanonFolder s R) as H.
  assert (E : __dict s = folded_rows s).
  { exact (canonical_dict_rows CanonFolder _ _ (proj1 H)
             (canonical_rows CanonFolder eq_refl
                FoldedDict_canonicalkey_idempotent s R)). }
  split; [exact E |].
  exists (dict_eqb (__dict s) d). split.
  - simpl. now apply eq_plain_consistent.
  - rewrite (dict_eqb_true _ _ (consistent_nodup_dict CanonFolder s H) Nd).
    assert (FP : forall c v,
               folded_pair CanonFolder s c v <-> In (c, v) (__dict s)).
    { intros c v. unfold folded_pair. rewrite (items_consistent CanonFolder s H).
      pose proof (folded_rows_in CanonFolder s c v H) as Fr.
      rewrite <- E in Fr. rewrite Fr. split.
      - intros [its [[= <-] X]]. exact X.
      - intros X. eexists. split; [reflexivity | exact X]. }
    split; intros Q c v.
    + rewrite FP. apply Q.
    + rewrite <- FP. apply Q.
Qed.

Lemma canonfolder_equals_plain_witness :
  exists r,
    __eq__ CanonFolder
      (run CanonFolder [Set_ (PyStr "onE") (PyInt 1);
                        Set_ (PyStr "Two") (PyInt 2)] empty)
      (Plain [(PyStr "two", PyInt 2); (PyStr "one", PyInt 1)]) = Ok r.
Proof.
  destruct (canonfolder_equals_plain
              (run CanonFolder [Set_ (PyStr "onE") (PyInt 1);
                                Set_ (PyStr "Two") (PyInt 2)] empty)
              [(PyStr "two", PyInt 2); (PyStr "one", PyInt 1)])
    as [_ [r [E _]]].
  - apply (reachable_run CanonFolder), reach_empty.
  - repeat constructor; simpl; intuition discriminate.
  - exists r. exact E.
Defined.

(** ** Sorted keys *)

Section SortingFacts.

Context {A : Type} (leb : A -> A -> bool).
Hypothesis leb_total : forall a b, leb a b = true \/ leb b a = true.
Hypothesis leb_antisym :
  forall a b, leb a b = true -> leb b a = true -> a = b.
Hypothesis leb_trans :
  forall a b c, leb a b = true -> leb b c = true -> leb a c = true.

Lemma insert_sorted_comm a b l :
  insert_sorted leb a (insert_sorted leb b l)
  = insert_sorted leb b (insert_sorted leb a l).
Proof.
  induction l as [| y l IH]; simpl.
  - destruct (leb a b) eqn:Eab, (leb b a) eqn:Eba; try reflexivity.
    + now rewrite (leb_antisym a b Eab Eba).
    + destruct (leb_total a b); congruence.
  - destruct (leb b y) eqn:Eby, (leb a y) eqn:Eay; simpl;
      rewrite ?Eby, ?Eay.
    + destruct (leb a b) eqn:Eab, (leb b a) eqn:Eba; try reflexivity.
      * now rewrite (leb_antisym a b Eab Eba).
      * destruct (leb_total a b); congruence.
    + destruct (leb a b) eqn:Eab; [| reflexivity].
      rewrite (leb_trans a b y Eab Eby) in Eay. discriminate.
    + destruct (leb b a) eqn:Eba; [| reflexivity].
      rewrite (leb_trans b a y Eba Eay) in Eby. discriminate.
    + now rewrite IH.
Qed.

Lemma sort_by_permutation l l' :
  Permutation l l' -> sort_by leb l = sort_by leb l'.
Proof.
  induction 1; simpl; try congruence. apply insert_sorted_comm.
Qed.

Lemma insert_sorted_perm a l : Permutation (a :: l) (insert_sorted leb a l).
Proof.
  induction l as [| y l IH]; simpl; [apply Permutation_refl |].
  destruct (leb a y); [apply Permutation_refl |].
  apply perm_trans with (y :: a :: l); [apply perm_swap |].
  now apply perm_skip.
Qed.

Lemma sort_by_perm l : Permutation l (sort_by leb l).
Proof.
  induction l as [| a l IH]; simpl; [constructor |].
  apply perm_trans with (a :: sort_by leb l); [now apply perm_skip |].
  apply insert_sorted_perm.
Qed.

Lemma sort_by_idempotent l : sort_by leb (sort_by leb l) = sort_by leb l.
Proof. apply sort_by_permutation, Permutation_sym, sort_by_perm. Qed.

End SortingFacts.

Lemma Z_leb_total (a b : Z) : Z.leb a b = true \/ Z.leb b a = true.
Proof. rewrite !Z.leb_le. lia. Qed.

Lemma Z_leb_antisym (a b : Z) : Z.leb a b = true -> Z.leb b a = true -> a = b.
Proof. rewrite !Z.leb_le. lia. Qed.

Lemma Z_leb_trans (a b c : Z) :
  Z.leb a b = true -> Z.leb b c = true -> Z.leb a c = true.
Proof. rewrite !Z.leb_le. lia. Qed.

Lemma string_leb_trans (a b c : string) :
  String.leb a b = true -> String.leb b c = true -> String.leb a c = true.
Proof.
  unfold String.leb. revert b c.
  induction a as [| x a IH]; intros [| y b] [| z c]; simpl; try congruence.
  unfold Ascii.compare.
  destruct (N.compare_spec (N_of_ascii x) (N_of_ascii y));
    destruct (N.compare_spec (N_of_ascii y) (N_of_ascii z));
    destruct (N.compare_spec (N_of_ascii x) (N_of_ascii z));
    try congruence; try lia.
  apply IH.
Qed.

Lemma ints_of_ints (zs : list Z) : ints_of (map PyInt zs) = Some zs.
Proof. induction zs as [| z zs IH]; simpl; [reflexivity | now rewrite IH]. Qed.

Lemma strs_of_strs (ss : list string) : strs_of (map PyStr ss) = Some ss.
Proof. induction ss as [| x ss IH]; simpl; [reflexivity | now rewrite IH]. Qed.

Section SortedKeys.

Variable sorted_other : list obj -> result (list obj).

Lemma py_sorted_ints zs :
  py_sorted sorted_other (map PyInt zs) = Ok (map PyInt (sort_by Z.leb zs)).
Proof. unfold py_sorted. now rewrite ints_of_ints. Qed.

Lemma py_sorted_strs ss :
  py_sorted sorted_other (map PyStr ss)
  = Ok (map PyStr (sort_by String.leb ss)).
Proof.
  unfold py_sorted. destruct ss as [| x ss]; [reflexivity |].
  simpl ints_of. now rewrite strs_of_strs.
Qed.

Lemma sorted_key_ints zs :
  SortedKeyDict_canonicalkey sorted_other (PyTuple (map PyInt zs))
  = Ok (PyTuple (map PyInt (sort_by Z.leb zs))).
Proof.
  unfold SortedKeyDict_canonicalkey. simpl. now rewrite py_sorted_ints.
Qed.

(** X13 ([SortedKeyDict.canonicalkey]).  [None] and integer keys come back
    unchanged.  A tuple of integers folds to the tuple of its items in
    ascending order, so tuples that are permutations of one another have
    the same canonical key; a [bytes] key folds to the sorted tuple of its
    byte values; a [str] key folds to the tuple of its characters in order
    of code point, so strings with the same characters, such as ['abc'] and
    ['bac'], have the same canonical key.  Applied to one of these results,
    [canonicalkey] returns it unchanged. *)
Theorem sorted_key_canonicalkey :
  SortedKeyDict_canonicalkey sorted_other PyNone = Ok PyNone /\
  (forall z, SortedKeyDict_canonicalkey sorted_other (PyInt z) = Ok (PyInt z)) /\
  (forall zs,
      SortedKeyDict_canonicalkey sorted_other (PyTuple (map PyInt zs))
      = Ok (PyTuple (map PyInt (sort_by Z.leb zs)))) /\
  (forall zs zs', Permutation zs zs' ->
      SortedKeyDict_canonicalkey sorted_other (PyTuple (map PyInt zs))
      = SortedKeyDict_canonicalkey sorted_other (PyTuple (map PyInt zs'))) /\
  (forall b,
      SortedKeyDict_canonicalkey sorted_other (PyBytes b)
      = Ok (PyTuple (map PyInt (sort_by Z.leb (byte_values b))))) /\
  (forall s,
      SortedKeyDict_canonicalkey sorted_other (PyStr s)
      = Ok (PyTuple (map PyStr (sort_by String.leb (chars s))))) /\
  (forall s s', Permutation (chars s) (chars s') ->
      SortedKeyDict_canonicalkey sorted_other (PyStr s)
      = SortedKeyDict_canonicalkey sorted_other (PyStr s')) /\
  (forall zs,
      SortedKeyDict_canonicalkey sorted_other
        (PyTuple (map PyInt (sort_by Z.leb zs)))
      = Ok (PyTuple (map PyInt (sort_by Z.leb zs)))) /\
  (forall ss,
      SortedKeyDict_canonicalkey sorted_other
        (PyTuple (map PyStr (sort_by String.leb ss)))
      = Ok (PyTuple (map PyStr (sort_by String.leb ss)))).
Proof.
  assert (St : forall s,
             SortedKeyDict_canonicalkey sorted_other (PyStr s)
             = Ok (PyTuple (map PyStr (sort_by String.leb (chars s))))).
  { intros s. unfold SortedKeyDict_canonicalkey. simpl.
    now rewrite py_sorted_strs. }
  split; [reflexivity |]. split; [reflexivity |].
  split; [exact sorted_key_ints |]. split.
  - intros zs zs' Pm. rewrite !sorted_key_ints.
    now rewrite (sort_by_permutation Z.leb Z_leb_total Z_leb_antisym
                   Z_leb_trans zs zs' Pm).
  - split.
    + intros b. unfold SortedKeyDict_canonicalkey. simpl.
      now rewrite py_sorted_ints.
    + split; [exact St |]. split.
      * intros s s' Pm. rewrite !St.
        now rewrite (sort_by_permutation String.leb String.leb_total
                       String.leb_antisym string_leb_trans _ _ Pm).
      * split.
        -- intros zs. rewrite sorted_key_ints.
           now rewrite (sort_by_idempotent Z.leb Z_leb_total Z_leb_antisym
                          Z_leb_trans).
        -- intros ss. unfold SortedKeyDict_canonicalkey. simpl.
           rewrite py_sorted_strs.
           now rewrite (sort_by_idempotent String.leb String.leb_total
                          String.leb_antisym string_leb_trans).
Qed.

(** X14 (permuted tuples share an entry).  On a reachable
    [SortedKeyDict], after [d[t] = val] for a tuple [t] of integers, [d[t']]
    returns [val] for every tuple [t'] that is a permutation of [t], and
    [len(d)] counts the two as one class. *)
Theorem sorted_key_permutations_share (s : instance) (zs zs' : list Z)
    (val : obj) :
  reachable (SortedKeyDict sorted_other) s -> Permutation zs zs' ->
  exists s',
    __setitem__ (SortedKeyDict sorted_other) (PyTuple (map PyInt zs)) val s
    = (Ok tt, s') /\
    __getitem__ (SortedKeyDict sorted_other) (PyTuple (map PyInt zs')) s'
    = (Ok val, s') /\
    __len__ (snd (__setitem__ (SortedKeyDict sorted_other)
                    (PyTuple (map PyInt zs')) val s'))
    = __len__ s'.
Proof.
  intros R Pm. set (C := SortedKeyDict sorted_other) in *.
  pose proof (reachable_consistent C s R) as H.
  assert (I : idempotent_if_canonical C) by (intros O; discriminate O).
  set (c := PyTuple (map PyInt (sort_by Z.leb zs))).
  assert (K : canonicalkey C (PyTuple (map PyInt zs)) = Ok c)
    by apply sorted_key_ints.
  assert (K' : canonicalkey C (PyTuple (map PyInt zs')) = Ok c).
  { unfold c. rewrite (sort_by_permutation Z.leb Z_leb_total Z_leb_antisym
                         Z_leb_trans zs zs' Pm). apply sorted_key_ints. }
  pose proof (setitem_returns C I _ val s c H K) as E.
  pose proof (setitem_lookup_same C I _ val s c H K) as L.
  pose proof (consistent_setitem C (PyTuple (map PyInt zs)) val s H) as H1.
  destruct (__setitem__ C (PyTuple (map PyInt zs)) val s) as [r s'].
  simpl in E, L, H1. subst r.
  exists s'. split; [reflexivity |]. split.
  - now rewrite getitem_lookup, K', L.
  - rewrite (setitem_FoldedDict C _ _ _ eq_refl).
    unfold lookup in L.
    destruct (d_get (__preserves s') c) as [p |] eqn:G; [| discriminate].
    rewrite (store_present C _ _ _ _ _ K' G). unfold __len__. simpl.
    rewrite <- (length_map fst), (d_set_keys_present _ _ _ _ L).
    apply length_map.
Qed.

End SortedKeys.

Lemma sorted_key_permutations_share_witness :
  exists s',
    __setitem__ (SortedKeyDict (fun _ => Raise TypeError))
      (PyTuple (map PyInt [3; 2; 1])) (PyStr "bar")
      (after (SortedKeyDict (fun _ => Raise TypeError))
         (Set_ (PyTuple (map PyInt [1; 2; 3])) (PyStr "foo")) empty)
    = (Ok tt, s') /\
    __getitem__ (SortedKeyDict (fun _ => Raise TypeError))
      (PyTuple (map PyInt [2; 3; 1])) s' = (Ok (PyStr "bar"), s').
Proof.
  destruct (sorted_key_permutations_share (fun _ => Raise TypeError)
              (after (SortedKeyDict (fun _ => Raise TypeError))
                 (Set_ (PyTuple (map PyInt [1; 2; 3])) (PyStr "foo")) empty)
              [3; 2; 1] [2; 3; 1] (PyStr "bar")
              (reach_call _ _ _ (reach_empty _))
              (perm_swap 2 3 [1]))
    as [s' [E [G _]]].
  exists s'. split; [exact E | exact G].
Defined.

Lemma sorted_key_canonicalkey_witness :
  SortedKeyDict_canonicalkey (fun _ => Raise TypeError)
    (PyTuple (map PyInt [1; 2; 3]))
  = SortedKeyDict_canonicalkey (fun _ => Raise TypeError)
      (PyTuple (map PyInt [3; 2; 1])).
Proof.
  exact (proj1 (proj2 (proj2 (proj2
           (sorted_key_canonicalkey (fun _ => Raise TypeError)))))
           [1; 2; 3] [3; 2; 1] (Permutation_rev [1; 2; 3])).
Defined.

(** ** Composite behaviour *)

Lemma preserved_key_row (C : klass) (s : instance) (p c : obj) :
  consistent C s -> In p (keys s) -> canonicalkey C p = Ok c ->
  d_get (__preserves s) c = Some p.
Proof.
  intros [F N] I K. unfold keys, __iter__ in I.
  rewrite <- (linked_keys C _ _ F) in I.
  apply in_map_iff in I. destruct I as [[c' p'] [E I]]. simpl in E. subst p'.
  pose proof (linked_in C _ _ _ F I) as K'. simpl in K'.
  assert (c' = c) by congruence. subst c'. now apply in_d_get.
Qed.

(** X15 (delete, then set again).  On a reachable instance of any class
    (with [CanonFolder._savekey], for an idempotent [canonicalkey]) where
    [p] is the preserved key of the class of [key]: after [del d[key]] the
    set [d[key2] = val] of a key of the same class forgets [p]; [keys()]
    is the old list without [p], followed by [key2] (by its canonical key
    in [CanonFolder]), and [d[key2]] returns [val]. *)
Theorem delete_then_set (C : klass) (s : instance) (key key2 val c p : obj) :
  idempotent_if_canonical C -> reachable C s ->
  canonicalkey C key = Ok c -> canonicalkey C key2 = Ok c ->
  In p (keys s) -> canonicalkey C p = Ok c ->
  exists s1 s2,
    __delitem__ C key s = (Ok tt, s1) /\
    __setitem__ C key2 val s1 = (Ok tt, s2) /\
    keys s2 = (l_del (keys s) p ++
               [match savekey_of C with OfCanonFolder => c | _ => key2 end])%list /\
    __getitem__ C key2 s2 = (Ok val, s2).
Proof.
  intros I R K K2 Ip Kp. pose proof (reachable_consistent C s R) as H.
  pose proof (preserved_key_row C s p c H Ip Kp) as G.
  destruct (linked_value C _ _ _ _ (proj1 H) G) as [v V].
  pose proof (consistent_delitem C key s H) as H1.
  rewrite (delitem_present C _ _ _ _ _ K G V) in *. simpl in H1.
  remember {| __preserves := d_del (__preserves s) c;
              __dict := d_del (__dict s) p |} as s1 eqn:Es1.
  assert (G1 : d_get (__preserves s1) c = None)
    by (subst s1; apply d_get_del_same, H).
  pose proof (setitem_lookup_same C I key2 val s1 c H1 K2) as L.
  pose proof (setitem_unpopulated C I s1 key2 val c H1 K2 G1) as E.
  cbv zeta in E. rewrite E in L. cbn [snd] in L.
  exists s1. eexists. split; [reflexivity |]. split; [exact E |]. split.
  - subst s1. unfold keys, __iter__. simpl. now rewrite map_app, l_del_keys.
  - now rewrite getitem_lookup, K2, L.
Qed.

Lemma delete_then_set_witness :
  exists s1 s2,
    __delitem__ FoldedDict (PyStr "BANANA")
      (after FoldedDict (Set_ (PyStr "banana") (PyStr "gram")) empty)
    = (Ok tt, s1) /\
    __setitem__ FoldedDict (PyStr "baNANA") (PyInt 42) s1 = (Ok tt, s2) /\
    keys s2 = [PyStr "baNANA"] /\
    __getitem__ FoldedDict (PyStr "baNANA") s2 = (Ok (PyInt 42), s2).
Proof.
  apply (delete_then_set FoldedDict
           (after FoldedDict (Set_ (PyStr "banana") (PyStr "gram")) empty)
           (PyStr "BANANA") (PyStr "baNANA") (PyInt 42) (PyStr "banana")
           (PyStr "banana")).
  - intros O. discriminate O.
  - apply reach_call, reach_empty.
  - reflexivity.
  - reflexivity.
  - simpl. now left.
  - reflexivity.
Defined.




(** X17 (keys that are not text match exactly).  In [FoldedDict],
    [CanonFolder] and [DKFoldedDict], a key [k'] that is neither [str] nor
    [bytes] (an integer, [None], a tuple, also a tuple of strings) shares
    its entry with no other key: after [d[k] = val] for any [k] other than
    [k'], [d[k']] reads as it did before; and after [d[k'] = val] the
    preserved key of its class is [k'] itself. *)
Theorem non_text_keys_match_exactly (C : klass) (s : instance)
    (k k' val : obj) :
  canonicalkey C = FoldedDict_canonicalkey -> reachable C s ->
  not_text k' ->
  (k <> k' ->
   fst (__getitem__ C k' (snd (__setitem__ C k val s)))
   = fst (__getitem__ C k' s)) /\
  d_get (__preserves (snd (__setitem__ C k' val s))) k' = Some k'.
Proof.
  intros D R T. pose proof (reachable_consistent C s R) as H.
  assert (I : idempotent_if_canonical C).
  { intros _ x c. rewrite D. apply FoldedDict_canonicalkey_idempotent. }
  assert (K' : canonicalkey C k' = Ok k').
  { rewrite D. destruct k'; simpl in T; try contradiction; reflexivity. }
  split.
  - intros N.
    assert (K : exists c, canonicalkey C k = Ok c /\ k' <> c).
    { rewrite D, FoldedDict_canonicalkey_total. eexists. split; [reflexivity |].
      destruct k; try congruence; destruct k'; simpl in T;
        try contradiction; discriminate. }
    destruct K as [c [K Nc]].
    rewrite !getitem_lookup, K'. simpl.
    now rewrite (setitem_lookup_other C I k val s c k' H K Nc).
  - pose proof (consistent_setitem C k' val s H) as H1.
    pose proof (setitem_lookup_same C I k' val s k' H K') as L.
    unfold lookup in L.
    destruct (d_get (__preserves (snd (__setitem__ C k' val s))) k')
      as [p |] eqn:G; [| discriminate].
    pose proof (linked_folds C _ _ _ _ (proj1 H1) G) as Kp.
    f_equal. rewrite D in Kp. rewrite FoldedDict_canonicalkey_total in Kp.
    injection Kp as Kp.
    destruct p; try exact Kp; subst k'; simpl in T; contradiction.
Qed.

Lemma non_text_keys_match_exactly_witness :
  fst (__getitem__ FoldedDict (PyTuple [PyStr "a"])
         (snd (__setitem__ FoldedDict (PyTuple [PyStr "A"]) (PyInt 2)
                 (after FoldedDict (Set_ (PyTuple [PyStr "a"]) (PyInt 1))
                    empty))))
  = fst (__getitem__ FoldedDict (PyTuple [PyStr "a"])
           (after FoldedDict (Set_ (PyTuple [PyStr "a"]) (PyInt 1)) empty)).
Proof.
  refine (proj1 (non_text_keys_match_exactly FoldedDict
                   (after FoldedDict (Set_ (PyTuple [PyStr "a"]) (PyInt 1)) empty)
                   (PyTuple [PyStr "A"]) (PyTuple [PyStr "a"]) (PyInt 2)
                   eq_refl (reach_call _ _ _ (reach_empty _)) I) _).
  discriminate.
Defined.
